(** * llm-cli: the interactive session of [main.go]

    A shallow embedding of [main.go]: the session variables of
    [runInteractiveMode] ([messages], [contextFile], [isMultiline],
    [lines]), its loop, the helpers it calls and [main].

    The program talks to the terminal, the file system and the remote
    completion endpoint.  Those are collected in a record [Env] of
    oracles; every function of the program runs in a small monad [IO]
    that logs the effects it performs, in order, and that can panic. *)

From Stdlib Require Import String Ascii List Bool Arith Lia.
Import ListNotations.
Open Scope string_scope.
Open Scope list_scope.

(** ** Strings, as package [strings] treats them *)

(** The line feed, [\n] in the Go literals. *)
Definition nl : string := String (ascii_of_nat 10) EmptyString.

(** An upper-case ASCII letter is moved to its lower-case form. *)
Definition lowerByte (c : ascii) : ascii :=
  let n := nat_of_ascii c in
  if ((65 <=? n) && (n <=? 90))%nat then ascii_of_nat (n + 32) else c.

(** The two bytes [C4 B0]: U+0130, capital I with a dot above, in UTF-8. *)
Definition isDottedI (c0 c1 : ascii) : bool :=
  Ascii.eqb c0 "196" && Ascii.eqb c1 "176".

(** The three bytes [E2 84 AA]: U+212A, the Kelvin sign, in UTF-8. *)
Definition isKelvin (c0 c1 c2 : ascii) : bool :=
  Ascii.eqb c0 "226" && Ascii.eqb c1 "132" && Ascii.eqb c2 "170".

(** [strings.ToLower], on the bytes of a string.  Go lowers every rune
    with [unicode.ToLower].  The runes whose lower case is an ASCII
    character are the ASCII characters themselves, U+0130 (to [i]) and
    U+212A (to [k]); these are lowered here as in Go, so that a line such
    as [:mult] followed by U+0130 is [:multi] here too.  Every other
    byte from 128 up is kept, where Go gives the lower case of the rune
    (or U+FFFD for a byte that is no UTF-8): both results then hold a
    byte from 128 up.  So this function and Go's give the same string
    whenever one of the two results is ASCII, and every comparison of a
    lowered line with one of the commands, which are ASCII, comes out as
    in Go. *)
Fixpoint ToLower (s : string) : string :=
  match s with
  | EmptyString => EmptyString
  | String c0 s1 =>
      match s1 with
      | EmptyString => String (lowerByte c0) (ToLower s1)
      | String c1 s2 =>
          if isDottedI c0 c1 then String "i" (ToLower s2)
          else
            match s2 with
            | EmptyString => String (lowerByte c0) (ToLower s1)
            | String c2 s3 =>
                if isKelvin c0 c1 c2 then String "k" (ToLower s3)
                else String (lowerByte c0) (ToLower s1)
            end
      end
  end.

(** [s] begins with [p], byte for byte. *)
Fixpoint HasPrefix (s p : string) {struct p} : bool :=
  match p, s with
  | EmptyString, _ => true
  | String _ _, EmptyString => false
  | String a p', String b s' => if Ascii.eqb a b then HasPrefix s' p' else false
  end.

(** [if HasPrefix(s, prefix) { return s[len(prefix):] }; return s] *)
Definition TrimPrefix (s p : string) : string :=
  if HasPrefix s p
  then substring (String.length p) (String.length s - String.length p) s
  else s.

Definition Join (elems : list string) (sep : string) : string :=
  String.concat sep elems.

(** ** Values of the program *)

(** A Go [error], kept as the text [%v] prints. *)
Definition error : Type := string.

Module openai.

Inductive ChatMessageRole : Type :=
| ChatMessageRoleSystem
| ChatMessageRoleUser
| ChatMessageRoleAssistant.

Record ChatCompletionMessage : Type := {
  Role : ChatMessageRole;
  Content : string
}.

Record ChatCompletionRequest : Type := {
  Model : string;
  Messages : list ChatCompletionMessage
}.

Record ChatCompletionChoice : Type := {
  Message : ChatCompletionMessage
}.

Record ChatCompletionResponse : Type := {
  Choices : list ChatCompletionChoice
}.

End openai.

Import openai.

Record Config : Type := {
  Model : string;
  AIName : string;
  SystemPrompt : string;
  Style : string
}.

Definition cmdQuit : string := ":q".
Definition cmdMulti : string := ":multi".
Definition cmdEnd : string := ":end".
Definition cmdRemove : string := ":remove".
Definition cmdFile : string := ":file ".

(** ** The outside world *)

(** What the program asks of its surroundings.  A Go pair [(v, err)] is a
    pair whose second component is [None] for [nil]. *)
Record Env : Type := {
  (* os.Open, and json.Decoder.Decode on the opened file *)
  Open : string -> option error;
  Decode : string -> Config * option error;
  (* the flags after flag.Parse *)
  flagPrompt : string;
  flagInteractive : bool;
  Getenv : string -> string;
  (* client.CreateChatCompletion *)
  CreateChatCompletion : ChatCompletionRequest -> ChatCompletionResponse * option error;
  ReadFile : string -> string * option error;
  Getwd : string * option error;
  (* user.Current, reduced to the HomeDir of its result *)
  UserCurrent : string * option error;
  (* lipgloss: a style of a foreground colour, bold or not, applied to a text *)
  lipglossRender : string -> bool -> string -> string;
  (* glamour: building a renderer for a style path, and rendering with it *)
  NewTermRenderer : string -> option error;
  glamourRender : string -> string -> string * option error
}.

(** ** Effects *)

Inductive Effect : Type :=
| Stdout (text : string)
| Usage
| RemoteCall (req : ChatCompletionRequest)
| FileRead (fileName : string).

(** A computation logs its effects and yields a value, or panics
    ([None]) after the effects logged so far. *)
Definition IO (A : Type) : Type := list Effect * option A.

Definition ret {A : Type} (a : A) : IO A := ([], Some a).

Definition bind {A B : Type} (m : IO A) (f : A -> IO B) : IO B :=
  match snd m with
  | None => (fst m, None)
  | Some a => (fst m ++ fst (f a), snd (f a))
  end.

Definition emit (e : Effect) : IO unit := ([e], Some tt).

Definition panic {A : Type} : IO A := ([], None).

Notation "x <- m ;; k" := (bind m (fun x => k))
  (at level 61, m at next level, right associativity).
Notation "m ;;; k" := (bind m (fun _ => k))
  (at level 61, right associativity).

Module fmt.

Definition Print (s : string) : IO unit := emit (Stdout s).
Definition Println (s : string) : IO unit := emit (Stdout (s ++ nl)%string).

End fmt.

(** ** The scanner on standard input *)

(** The lines still to come and how the stream ends ([None]: end of input,
    [Some e]: a read error), or a scanner that has met that end.  A read
    error is seen by the [Scan] that finds no further line, and nothing
    is left in the buffer when it is met: [Stopped] gives no line any
    more.  That is how [bufio.Scanner] is after the end of the input.
    After [bufio.ErrTooLong], and after a read error that came with an
    unfinished last line, the scanner still hands out what it holds;
    those streams are outside this model. *)
Inductive Scanner : Type :=
| Pending (toks : list string) (final : option error)
| Stopped (err : option error).

(** [scanner.Scan()] followed by [scanner.Text()]. *)
Definition Scan (sc : Scanner) : bool * string * Scanner :=
  match sc with
  | Pending (line :: rest) fin => (true, line, Pending rest fin)
  | Pending [] fin => (false, "", Stopped fin)
  | Stopped e => (false, "", Stopped e)
  end.

Definition ScanErr (sc : Scanner) : option error :=
  match sc with
  | Pending _ _ => None
  | Stopped e => e
  end.

(** ** The helpers of [main.go] *)

Section Program.

Variable env : Env.

Definition getCurrentDirectory : string :=
  let '(currentDir, err) := Getwd env in
  match err with
  | Some _ => "unknown"
  | None =>
      let '(homeDir, uerr) := UserCurrent env in
      match uerr with
      | None =>
          if HasPrefix currentDir homeDir
          then ("~" ++ TrimPrefix currentDir homeDir)%string
          else currentDir
      | Some _ => currentDir
      end
  end.

Definition formatInputPrefix (dir : string) (isMultiline : bool) (aiName : string) : string :=
  let formattedDir := lipglossRender env "86" false ("(" ++ dir ++ ")")%string in
  let formattedYou := lipglossRender env "183" true "You" in
  if isMultiline then
    let multilineIndicator := lipglossRender env "204" false "[Multiline]" in
    (formattedDir ++ " " ++ multilineIndicator ++ " " ++ formattedYou ++ ": ")%string
  else
    (formattedDir ++ " " ++ formattedYou ++ ": ")%string.

Definition readFile (fileName : string) : IO (string * option error) :=
  emit (FileRead fileName) ;;;
  let '(content, err) := ReadFile env fileName in
  match err with
  | Some e => ret ("", Some e)
  | None => ret (content, None)
  end.

(** [resp.Choices[0]] panics (index out of range) on an empty slice. *)
Definition callOpenAI (config : Config) (messages : list ChatCompletionMessage)
  : IO (string * option error) :=
  let req := {| openai.Model := Model config; Messages := messages |} in
  emit (RemoteCall req) ;;;
  let '(resp, err) := CreateChatCompletion env req in
  match err with
  | Some e => ret ("", Some e)
  | None =>
      match Choices resp with
      | [] => panic
      | choice :: _ => ret (Content (Message choice), None)
      end
  end.

Definition printFormattedResponse (response style aiName model : string)
  : IO (option error) :=
  let stylePath := ("./styles/" ++ style ++ ".json")%string in
  match NewTermRenderer env stylePath with
  | Some e => ret (Some e)
  | None =>
      let formattedAIName := lipglossRender env "39" true aiName in
      let formattedModel := lipglossRender env "178" false ("(" ++ model ++ ")")%string in
      fmt.Print (nl ++ formattedAIName ++ " " ++ formattedModel ++ ": ")%string ;;;
      let '(out, err) := glamourRender env stylePath response in
      match err with
      | Some e => ret (Some e)
      | None => fmt.Print out ;;; ret None
      end
  end.

(** ** The session of [runInteractiveMode] *)

(** The four variables the loop of [runInteractiveMode] owns. *)
Record Session : Type := {
  messages : list ChatCompletionMessage;
  contextFile : string;
  isMultiline : bool;
  lines : list string
}.

Definition set_messages (st : Session) (ms : list ChatCompletionMessage) : Session :=
  {| messages := ms; contextFile := contextFile st;
     isMultiline := isMultiline st; lines := lines st |}.

Definition set_contextFile (st : Session) (f : string) : Session :=
  {| messages := messages st; contextFile := f;
     isMultiline := isMultiline st; lines := lines st |}.

Definition set_isMultiline (st : Session) (b : bool) : Session :=
  {| messages := messages st; contextFile := contextFile st;
     isMultiline := b; lines := lines st |}.

Definition set_lines (st : Session) (ls : list string) : Session :=
  {| messages := messages st; contextFile := contextFile st;
     isMultiline := isMultiline st; lines := ls |}.

Definition systemMsg (content : string) : ChatCompletionMessage :=
  {| Role := ChatMessageRoleSystem; Content := content |}.

Definition userMsg (content : string) : ChatCompletionMessage :=
  {| Role := ChatMessageRoleUser; Content := content |}.

Definition assistantMsg (content : string) : ChatCompletionMessage :=
  {| Role := ChatMessageRoleAssistant; Content := content |}.

(** The variables as the loop is entered. *)
Definition initialSession (config : Config) : Session :=
  {| messages := [systemMsg (SystemPrompt config)];
     contextFile := "";
     isMultiline := false;
     lines := [] |}.

(** How the body of a [for] ends: at its closing brace or at a [continue]
    ([Next]), or by leaving the loop ([Break] in the inner loop, [Return]
    from the function in the outer one). *)
Inductive LoopCtl : Type := Next | Break | Return.

(** The body of the inner loop [for scanner.Scan() { ... }], on the line
    [scanner.Text()] gave. *)
Definition multilineLine (st : Session) (line : string) : IO (LoopCtl * Session) :=
  if HasPrefix line ":" then
    let command := ToLower line in
    if (command =? cmdMulti)%string then
      fmt.Println "Exiting multiline mode." ;;;
      fmt.Println "" ;;;
      ret (Break, set_lines (set_isMultiline st false) [])
    else if (command =? cmdRemove)%string then
      if (0 <? length (lines st))%nat then
        let st' := set_lines st (firstn (length (lines st) - 1) (lines st)) in
        fmt.Println "Last line removed." ;;;
        fmt.Println "" ;;;
        ret (Next, st')
      else
        fmt.Println "No lines to remove." ;;;
        fmt.Println "" ;;;
        ret (Next, st)
    else if (command =? cmdEnd)%string then
      ret (Break, st)
    else
      ret (Next, set_lines st (lines st ++ [line]))
  else
    ret (Next, set_lines st (lines st ++ [line])).

(** The inner loop over the lines the scanner still holds. *)
Fixpoint scanLines (toks : list string) (fin : option error) (st : Session)
  : IO (Scanner * Session) :=
  match toks with
  | [] => ret (Stopped fin, st)
  | line :: rest =>
      r <- multilineLine st line ;;
      match fst r with
      | Next => scanLines rest fin (snd r)
      | _ => ret (Pending rest fin, snd r)
      end
  end.

Definition multilineLoop (sc : Scanner) (st : Session) : IO (Scanner * Session) :=
  match sc with
  | Pending toks fin => scanLines toks fin st
  | Stopped e => ret (Stopped e, st)
  end.

(** A turn: the user message is appended, the model is called with all of
    [messages], and on success the reply is appended and printed.  The two
    branches of the loop hold this code twice, word for word but for the
    text that introduces a failed call ([errorPrefix]); it is written once
    here. *)
Definition sendTurn (config : Config) (st : Session) (content errorPrefix : string)
  : IO Session :=
  let st1 := set_messages st (messages st ++ [userMsg content]) in
  r <- callOpenAI config (messages st1) ;;
  let '(response, err) := r in
  match err with
  | Some e => fmt.Print (errorPrefix ++ e ++ nl)%string ;;; ret st1
  | None =>
      let st2 := set_messages st1 (messages st1 ++ [assistantMsg response]) in
      perr <- printFormattedResponse response (Style config) (AIName config) (Model config) ;;
      match perr with
      | Some e => fmt.Print ("Error formatting response: " ++ e ++ nl)%string
      | None => ret tt
      end ;;;
      fmt.Println "" ;;;
      ret st2
  end.

(** One pass through the body of the outer [for] of [runInteractiveMode]. *)
Definition iteration (config : Config) (st : Session) (sc : Scanner)
  : IO (LoopCtl * Session * Scanner) :=
  let currentDir := getCurrentDirectory in
  let inputPrefix := formatInputPrefix currentDir (isMultiline st) (AIName config) in
  fmt.Print inputPrefix ;;;
  if isMultiline st then
    fmt.Println "" ;;;
    r <- multilineLoop sc st ;;
    let '(sc1, st1) := r in
    match ScanErr sc1 with
    | Some e =>
        fmt.Print ("Error reading input: " ++ e ++ nl)%string ;;;
        ret (Next, st1, sc1)
    | None =>
        if (0 <? length (lines st1))%nat then
          let combinedInput := Join (lines st1) nl in
          st2 <- sendTurn config st1 combinedInput "Error communicating with AI: " ;;
          ret (Next, st2, sc1)
        else
          ret (Next, st1, sc1)
    end
  else
    let '(_, userInput, sc1) := Scan sc in
    if (ToLower userInput =? cmdQuit)%string then
      fmt.Println "Exiting interactive mode." ;;;
      fmt.Println "" ;;;
      ret (Return, st, sc1)
    else if (ToLower userInput =? cmdMulti)%string then
      fmt.Print ("Multiline mode. Type " ++ cmdEnd ++ " to finish input, "
                 ++ cmdRemove ++ " to delete the most recent line." ++ nl)%string ;;;
      fmt.Println "" ;;;
      ret (Next, set_lines (set_isMultiline st true) [], sc1)
    else if HasPrefix userInput cmdFile then
      let fileName := TrimPrefix userInput cmdFile in
      r <- readFile fileName ;;
      let '(content, err) := r in
      match err with
      | Some e =>
          fmt.Print ("Error reading file: " ++ e ++ nl)%string ;;;
          ret (Next, st, sc1)
      | None =>
          let st1 := set_contextFile st fileName in
          let fileContext := ("Content of " ++ fileName ++ ":" ++ nl ++ content)%string in
          let st2 := set_messages st1 (messages st1 ++ [userMsg fileContext]) in
          fmt.Print ("Added " ++ fileName ++ " to the context." ++ nl)%string ;;;
          fmt.Println "" ;;;
          ret (Next, st2, sc1)
      end
    else
      let userMessage :=
        if (contextFile st =? "")%string then userInput
        else ("(Context: " ++ contextFile st ++ ") " ++ userInput)%string in
      st1 <- sendTurn config st userMessage "Error: " ;;
      ret (Next, st1, sc1).

(** The outer [for { ... }], for at most [fuel] passes.  [None]: the
    passes are used up and the loop is still running. *)
Fixpoint interactiveLoop (fuel : nat) (config : Config) (st : Session) (sc : Scanner)
  : IO (option Session) :=
  match fuel with
  | O => ret None
  | S fuel' =>
      r <- iteration config st sc ;;
      let '(c, st', sc') := r in
      match c with
      | Return => ret (Some st')
      | _ => interactiveLoop fuel' config st' sc'
      end
  end.

Definition runInteractiveMode (fuel : nat) (config : Config) (stdin : Scanner)
  : IO (option Session) :=
  fmt.Print ("Entering interactive mode. Type " ++ cmdQuit ++ " to exit or "
             ++ cmdMulti ++ " to enter multiline mode." ++ nl)%string ;;;
  fmt.Println "" ;;;
  interactiveLoop fuel config (initialSession config) stdin.

(** ** [main] *)

Definition zeroConfig : Config :=
  {| Model := ""; AIName := ""; SystemPrompt := ""; Style := "" |}.

Definition loadConfig (path : string) : Config * option error :=
  match Open env path with
  | Some e => (zeroConfig, Some e)
  | None => Decode env path
  end.

(** The exit status of the process; [None] while the interactive loop
    still runs when the passes are used up.  [flag.Parse] is taken to
    have returned: [flagPrompt] and [flagInteractive] are the values it
    left.  Its own exits (status 2 on a flag that is not defined, 0 on
    [-h]), which come after the configuration is loaded and before the
    key is looked up, are not part of this function. *)
Definition main (fuel : nat) (stdin : Scanner) : IO (option nat) :=
  let '(config, err) := loadConfig "config.json" in
  match err with
  | Some e => fmt.Print ("Error loading config: " ++ e ++ nl)%string ;;; ret (Some 1)
  | None =>
      let prompt := flagPrompt env in
      let interactive := flagInteractive env in
      let apiKey := Getenv env "OPENAI_API_KEY" in
      if (apiKey =? "")%string then
        fmt.Println "Error: OPENAI_API_KEY not found in env" ;;; ret (Some 1)
      else if interactive then
        r <- runInteractiveMode fuel config stdin ;;
        match r with
        | Some _ => ret (Some 0)
        | None => ret None
        end
      else if (prompt =? "")%string then
        fmt.Println "Error: prompt is required in non-interactive mode" ;;;
        emit Usage ;;;
        ret (Some 1)
      else
        r <- callOpenAI config [systemMsg (SystemPrompt config); userMsg prompt] ;;
        let '(response, err) := r in
        match err with
        | Some e => fmt.Print ("Error: " ++ e ++ nl)%string ;;; ret (Some 1)
        | None =>
            perr <- printFormattedResponse response (Style config) (AIName config) (Model config) ;;
            match perr with
            | Some e =>
                fmt.Print ("Error formatting response: " ++ e ++ nl)%string ;;; ret (Some 1)
            | None => ret (Some 0)
            end
        end
  end.

End Program.

(** ** A concrete world, for running the program *)

Definition reply (text : string) : ChatCompletionResponse * option error :=
  ({| Choices := [ {| Message := assistantMsg text |} ] |}, None).

Definition noReply (e : error) : ChatCompletionResponse * option error :=
  ({| Choices := [] |}, Some e).

Definition demoConfig : Config :=
  {| Model := "gpt-x"; AIName := "Bot"; SystemPrompt := "be terse"; Style := "dark" |}.

(** A world whose file system holds [notes.txt] with the text [hello] and
    whose remote model behaves as [remote] says. *)
Definition demoEnv (prompt : string) (interactive : bool)
    (remote : ChatCompletionRequest -> ChatCompletionResponse * option error) : Env :=
  {| Open := fun _ => None;
     Decode := fun _ => (demoConfig, None);
     flagPrompt := prompt;
     flagInteractive := interactive;
     Getenv := fun _ => "key";
     CreateChatCompletion := remote;
     ReadFile := fun name =>
       if (name =? "notes.txt")%string then ("hello", None)
       else ("", Some "no such file or directory");
     Getwd := ("/home/u/p", None);
     UserCurrent := ("/home/u", None);
     lipglossRender := fun _ _ text => text;
     NewTermRenderer := fun _ => None;
     glamourRender := fun _ text => (text, None) |}.

Definition remoteOk : ChatCompletionRequest -> ChatCompletionResponse * option error :=
  fun _ => reply "ok".

Definition remoteDown : ChatCompletionRequest -> ChatCompletionResponse * option error :=
  fun _ => noReply "connection refused".

Definition remoteEmpty : ChatCompletionRequest -> ChatCompletionResponse * option error :=
  fun _ => ({| Choices := [] |}, None).

Definition multilineSession (ls : list string) : Session :=
  {| messages := [systemMsg "be terse"]; contextFile := ""; isMultiline := true; lines := ls |}.

(** The session after [:file notes.txt] in the demo world. *)
Definition notesSession : Session :=
  {| messages := [systemMsg "be terse";
                  userMsg ("Content of notes.txt:" ++ nl ++ "hello")%string];
     contextFile := "notes.txt"; isMultiline := false; lines := [] |}.

(** The session after the turn [hi] in the demo world. *)
Definition greetedSession : Session :=
  {| messages := [systemMsg "be terse"; userMsg "hi"; assistantMsg "ok"];
     contextFile := ""; isMultiline := false; lines := [] |}.

(** The requests sent to the remote model among some effects, in order. *)
Fixpoint remoteCalls (eff : list Effect) : list ChatCompletionRequest :=
  match eff with
  | [] => []
  | RemoteCall req :: rest => req :: remoteCalls rest
  | _ :: rest => remoteCalls rest
  end.

(** The sessions the loop can be in: the one it starts with, and what a
    pass makes of one of them, in any world and on any input. *)
Inductive reachable (config : Config) : Session -> Prop :=
| reach_init : reachable config (initialSession config)
| reach_pass (env : Env) (st : Session) (sc : Scanner)
    (c : LoopCtl) (st' : Session) (sc' : Scanner) :
    reachable config st ->
    snd (iteration env config st sc) = Some (c, st', sc') ->
    reachable config st'.

(** The prompt a pass starts with. *)
Definition promptOf (env : Env) (config : Config) (st : Session) : Effect :=
  Stdout (formatInputPrefix env (getCurrentDirectory env) (isMultiline st) (AIName config)).

(** The names [readFile] was called with among some effects, in order.
    [FileRead] is what [readFile] logs and nothing else logs it: the files
    that [loadConfig] and the renderer open are not in this list. *)
Fixpoint readFileCalls (eff : list Effect) : list string :=
  match eff with
  | [] => []
  | FileRead name :: rest => name :: readFileCalls rest
  | _ :: rest => readFileCalls rest
  end.

Definition isStdout (e : Effect) : Prop :=
  match e with
  | Stdout _ => True
  | _ => False
  end.

(** The test the inner loop makes on a line: it starts with a colon and
    its lower-case form is one of the three commands of multi-line mode. *)
Definition isCommand (line : string) : bool :=
  HasPrefix line ":" &&
  ((ToLower line =? cmdMulti)%string || (ToLower line =? cmdRemove)%string
   || (ToLower line =? cmdEnd)%string).

(** The lines of single-line mode that reach the last branch of the pass:
    not [:q], not [:multi], no [":file "] in front. *)
Definition isPlain (line : string) : bool :=
  negb (ToLower line =? cmdQuit)%string &&
  negb (ToLower line =? cmdMulti)%string &&
  negb (HasPrefix line cmdFile).

(** The content of the user message a plain line is sent as. *)
Definition plainContent (st : Session) (userInput : string) : string :=
  if (contextFile st =? "")%string then userInput
  else ("(Context: " ++ contextFile st ++ ") " ++ userInput)%string.

(** The reply [callOpenAI] takes from the answer to a request with the
    messages [ms]: the content of the first choice. *)
Definition firstReply (env : Env) (config : Config)
    (ms : list ChatCompletionMessage) : string :=
  match Choices (fst (CreateChatCompletion env
                        {| openai.Model := Model config; Messages := ms |})) with
  | choice :: _ => Content (Message choice)
  | [] => ""
  end.

(** The transcript that grows from [ms] when the contents are asked one
    after the other: each is added as a user message, and the reply to
    the request that carries all messages so far is added after it. *)
Fixpoint conversation (env : Env) (config : Config)
    (ms : list ChatCompletionMessage) (contents : list string)
  : list ChatCompletionMessage :=
  match contents with
  | [] => ms
  | u :: rest =>
      let asked := ms ++ [userMsg u] in
      conversation env config
        (asked ++ [assistantMsg (firstReply env config asked)]) rest
  end.

(** The requests of that conversation, in order. *)
Fixpoint requests (env : Env) (config : Config)
    (ms : list ChatCompletionMessage) (contents : list string)
  : list ChatCompletionRequest :=
  match contents with
  | [] => []
  | u :: rest =>
      let asked := ms ++ [userMsg u] in
      {| openai.Model := Model config; Messages := asked |}
      :: requests env config
           (asked ++ [assistantMsg (firstReply env config asked)]) rest
  end.

(** The line [:mult] followed by U+0130, which Go lowers to [:multi]. *)
Definition multDottedI : string :=
  (":mult" ++ String "196" (String "176" EmptyString))%string.

(** A transcript in the shape of a dialogue: the system message of the
    prompt [S] comes first, and each later message is a user message or an
    assistant message that directly follows a user message. *)
Definition dialogue (S : string) (ms : list ChatCompletionMessage) : Prop :=
  nth_error ms 0 = Some (systemMsg S) /\
  forall i m,
    nth_error ms (Datatypes.S i) = Some m ->
    Role m = ChatMessageRoleUser \/
    (Role m = ChatMessageRoleAssistant /\
     exists u, nth_error ms i = Some u /\ Role u = ChatMessageRoleUser).

(** ** Facts on strings *)

Lemma lowerByte_colon (c : ascii) : lowerByte c = ":"%char -> c = ":"%char.
Proof.
  destruct c as [b0 b1 b2 b3 b4 b5 b6 b7].
  destruct b0, b1, b2, b3, b4, b5, b6, b7; vm_compute; intro H;
    first [ reflexivity | discriminate H ].
Qed.

Lemma ToLower_colon (line rest : string) :
  ToLower line = String ":" rest -> HasPrefix line ":" = true.
Proof.
  assert (Hfirst : forall c0 s1 lowered out,
             String (lowerByte c0) lowered = String ":" out ->
             HasPrefix (String c0 s1) ":" = true).
  { intros c0 s1 lowered out H. injection H as Hc _. apply lowerByte_colon in Hc.
    subst c0. reflexivity. }
  destruct line as [| c0 [| c1 s2]]; cbn [ToLower]; intro H.
  - discriminate H.
  - exact (Hfirst c0 _ _ rest H).
  - destruct (isDottedI c0 c1); [discriminate H |].
    destruct s2 as [| c2 s3]; [exact (Hfirst c0 _ _ rest H) |].
    destruct (isKelvin c0 c1 c2); [discriminate H |].
    exact (Hfirst c0 _ _ rest H).
Qed.

Lemma substring_all (s : string) : substring 0 (String.length s) s = s.
Proof. induction s as [| c s IH]; simpl; [reflexivity | now rewrite IH]. Qed.

(** [TrimPrefix] gives back what follows the prefix. *)
Lemma TrimPrefix_strips (p s : string) :
  HasPrefix s p = true -> (p ++ TrimPrefix s p)%string = s.
Proof.
  unfold TrimPrefix. intro H. rewrite H.
  revert s H. induction p as [| a p IH]; intros s H.
  - simpl. rewrite Nat.sub_0_r. apply substring_all.
  - destruct s as [| b s]; cbn [HasPrefix] in H; [discriminate H |].
    destruct (Ascii.eqb_spec a b) as [-> | _]; [| discriminate H].
    simpl. f_equal. now apply IH.
Qed.

(** The two runes outside ASCII that lower into it, and one that does
    not: capital E with an acute accent, [C3 89], stays outside ASCII. *)
Example ToLower_beyond_ascii :
  ToLower multDottedI = cmdMulti /\
  ToLower (":MULT" ++ String "196" (String "176" ""))%string = cmdMulti /\
  ToLower (String "226" (String "132" (String "170" "ELVIN"))) = "kelvin" /\
  ToLower (":" ++ String "195" (String "137" "ND"))%string =
    (":" ++ String "195" (String "137" "nd"))%string /\
  isPlain multDottedI = false /\
  isCommand multDottedI = true.
Proof. repeat split. Qed.

(** A line that starts with [":file "] is neither [:q] nor [:multi]. *)
Lemma file_line_is_no_command (line : string) :
  HasPrefix line cmdFile = true ->
  (ToLower line =? cmdQuit)%string = false /\
  (ToLower line =? cmdMulti)%string = false.
Proof.
  unfold cmdFile. intro H.
  destruct line as [| c0 [| c1 rest]]; cbn [HasPrefix] in H; try discriminate H.
  - destruct (Ascii.eqb_spec ":" c0); discriminate H.
  - destruct (Ascii.eqb_spec ":" c0) as [<- |]; [| discriminate H].
    destruct (Ascii.eqb_spec "f" c1) as [<- |]; [| discriminate H].
    destruct rest as [| c2 [| c3 rest]]; split; reflexivity.
Qed.

(** ** Facts on effects *)

Lemma remoteCalls_app (e1 e2 : list Effect) :
  remoteCalls (e1 ++ e2) = remoteCalls e1 ++ remoteCalls e2.
Proof.
  induction e1 as [| e e1 IH]; simpl; [reflexivity |].
  destruct e; simpl; now rewrite IH.
Qed.

Lemma bind_returns {A B : Type} (m : IO A) (f : A -> IO B) (out : list Effect) (a : A) :
  m = (out, Some a) -> bind m f = (out ++ fst (f a), snd (f a)).
Proof. intros ->. reflexivity. Qed.

(** Printing a reply calls nothing and does not panic. *)
Lemma printFormattedResponse_quiet (env : Env) (response style aiName model : string) :
  exists out perr,
    printFormattedResponse env response style aiName model = (out, Some perr) /\
    remoteCalls out = [].
Proof.
  unfold printFormattedResponse.
  destruct (NewTermRenderer env _) as [e |].
  - exists [], (Some e). split; reflexivity.
  - destruct (glamourRender env _ response) as [out [e |]];
      eexists; eexists; split; reflexivity.
Qed.

(** A turn makes one call, on the messages so far and the new user
    message; what it leaves in [messages] follows what the call gave. *)
Lemma sendTurn_cases (env : Env) (config : Config) (st : Session) (content pfx : string) :
  let ms := messages st ++ [userMsg content] in
  let req := {| openai.Model := Model config; Messages := ms |} in
  remoteCalls (fst (sendTurn env config st content pfx)) = [req] /\
  match CreateChatCompletion env req with
  | (_, Some _) =>
      snd (sendTurn env config st content pfx) = Some (set_messages st ms)
  | (resp, None) =>
      match Choices resp with
      | [] => snd (sendTurn env config st content pfx) = None
      | choice :: _ =>
          snd (sendTurn env config st content pfx) =
          Some (set_messages st (ms ++ [assistantMsg (Content (Message choice))]))
      end
  end.
Proof.
  intros ms req. unfold sendTurn, callOpenAI.
  cbn [messages set_messages]. fold ms. fold req.
  destruct (CreateChatCompletion env req) as [resp [e |]]; [split; reflexivity |].
  destruct (Choices resp) as [| choice rest]; [split; reflexivity |].
  destruct (printFormattedResponse_quiet env (Content (Message choice))
              (Style config) (AIName config) (Model config)) as (out & perr & Hp & Hq).
  cbn. rewrite Hp. cbn. destruct perr as [e |]; cbn;
    rewrite !remoteCalls_app, Hq; split; reflexivity.
Qed.

(** ** Facts on the inner loop *)

(** A line of multi-line input calls nothing, does not panic, never leaves
    the function, and touches neither [messages] nor [contextFile]. *)
Lemma multilineLine_quiet (st : Session) (line : string) :
  exists out c st',
    multilineLine st line = (out, Some (c, st')) /\
    remoteCalls out = [] /\ c <> Return /\
    messages st' = messages st /\ contextFile st' = contextFile st.
Proof.
  unfold multilineLine.
  destruct (HasPrefix line ":");
    [ destruct (ToLower line =? cmdMulti)%string;
      [| destruct (ToLower line =? cmdRemove)%string;
         [ destruct (0 <? length (lines st))%nat
         | destruct (ToLower line =? cmdEnd)%string ] ] |];
    do 3 eexists; (split; [reflexivity |]); repeat split; discriminate.
Qed.

Lemma scanLines_quiet (toks : list string) (fin : option error) (st : Session) :
  exists out sc1 st1,
    scanLines toks fin st = (out, Some (sc1, st1)) /\
    remoteCalls out = [] /\
    messages st1 = messages st /\ contextFile st1 = contextFile st.
Proof.
  revert st. induction toks as [| line rest IH]; intro st.
  - exists [], (Stopped fin), st. repeat split.
  - destruct (multilineLine_quiet st line) as (o & c & st' & Hl & Hq & Hc & Hm & Hf).
    cbn [scanLines]. rewrite (bind_returns _ _ _ _ Hl). cbn [fst snd].
    destruct c.
    + destruct (IH st') as (o2 & sc1 & st1 & H2 & Hq2 & Hm2 & Hf2).
      rewrite H2. exists (o ++ o2), sc1, st1. cbn [fst snd].
      rewrite remoteCalls_app, Hq, Hq2. repeat split; congruence.
    + exists (o ++ []), (Pending rest fin), st'.
      rewrite remoteCalls_app, Hq. repeat split; assumption.
    + contradiction.
Qed.

Lemma multilineLoop_quiet (sc : Scanner) (st : Session) :
  exists out sc1 st1,
    multilineLoop sc st = (out, Some (sc1, st1)) /\
    remoteCalls out = [] /\
    messages st1 = messages st /\ contextFile st1 = contextFile st.
Proof.
  destruct sc as [toks fin | e]; [apply scanLines_quiet |].
  exists [], (Stopped e), st. repeat split.
Qed.

(** ** The shape of one pass *)

Arguments sendTurn : simpl never.

Tactic Notation "io_step" := cbn [bind fst snd fmt.Print fmt.Println emit ret panic app].
Tactic Notation "io_step" "in" hyp(H) :=
  cbn [bind fst snd fmt.Print fmt.Println emit ret panic app] in H.

(** A pass either calls nothing and leaves [messages] as they were or one
    user message longer, or it is a turn on an unchanged transcript. *)
Lemma iteration_shape (env : Env) (config : Config) (st : Session) (sc : Scanner) :
  (remoteCalls (fst (iteration env config st sc)) = [] /\
   exists c st' sc',
     snd (iteration env config st sc) = Some (c, st', sc') /\
     (messages st' = messages st \/
      exists content, messages st' = messages st ++ [userMsg content]))
  \/
  (exists st0 content pfx sc1,
     messages st0 = messages st /\
     remoteCalls (fst (iteration env config st sc)) =
       remoteCalls (fst (sendTurn env config st0 content pfx)) /\
     snd (iteration env config st sc) =
       match snd (sendTurn env config st0 content pfx) with
       | Some st' => Some (Next, st', sc1)
       | None => None
       end).
Proof.
  unfold iteration. destruct (isMultiline st).
  - destruct (multilineLoop_quiet sc st) as (out & sc1 & st1 & Hl & Hq & Hm & _).
    io_step. rewrite Hl. io_step.
    destruct (ScanErr sc1) as [e |]; [| destruct (0 <? length (lines st1))%nat].
    + left. cbn. rewrite remoteCalls_app, Hq. split; [reflexivity |].
      exists Next, st1, sc1. split; [reflexivity | now left].
    + right. exists st1, (Join (lines st1) nl), "Error communicating with AI: ", sc1.
      split; [exact Hm |]. io_step.
      destruct (sendTurn env config st1 _ _) as [o [s |]]; cbn;
        rewrite !remoteCalls_app, Hq; cbn; rewrite ?app_nil_r; split; reflexivity.
    + left. cbn. rewrite remoteCalls_app, Hq. split; [reflexivity |].
      exists Next, st1, sc1. split; [reflexivity | now left].
  - destruct (Scan sc) as [[b userInput] sc1].
    destruct (ToLower userInput =? cmdQuit)%string.
    { left. split; [reflexivity |]. exists Return, st, sc1. split; [reflexivity | now left]. }
    destruct (ToLower userInput =? cmdMulti)%string.
    { left. split; [reflexivity |]. eexists Next, _, sc1. split; [reflexivity | now left]. }
    destruct (HasPrefix userInput cmdFile).
    { left. unfold readFile.
      destruct (ReadFile env (TrimPrefix userInput cmdFile)) as [content [e |]].
      - split; [reflexivity |]. exists Next, st, sc1. split; [reflexivity | now left].
      - split; [reflexivity |]. eexists Next, _, sc1. split; [reflexivity |].
        right. eexists. reflexivity. }
    right.
    exists st,
      (if (contextFile st =? "")%string then userInput
       else ("(Context: " ++ contextFile st ++ ") " ++ userInput)%string),
      "Error: ", sc1.
    split; [reflexivity |]. io_step.
    destruct (sendTurn env config st _ _) as [o [s |]]; cbn;
      rewrite ?app_nil_r; split; reflexivity.
Qed.

(** A pass whose call failed: the user message of the turn stays in
    [messages], nothing follows it, and the loop goes on. *)
Lemma failed_call_pass (env : Env) (config : Config) (st : Session) (sc : Scanner)
    (req : ChatCompletionRequest) (e : error) :
  In req (remoteCalls (fst (iteration env config st sc))) ->
  snd (CreateChatCompletion env req) = Some e ->
  exists content st' sc',
    snd (iteration env config st sc) = Some (Next, st', sc') /\
    messages st' = messages st ++ [userMsg content] /\
    Messages req = messages st'.
Proof.
  intros Hin Hfail.
  destruct (iteration_shape env config st sc)
    as [[Hq _] | (st0 & content & pfx & sc1 & Hm & Hc & Hs)].
  - rewrite Hq in Hin. destruct Hin.
  - pose proof (sendTurn_cases env config st0 content pfx) as Ht.
    cbv zeta in Ht. destruct Ht as [Hreq Hcase].
    rewrite Hc, Hreq in Hin. destruct Hin as [<- | []].
    destruct (CreateChatCompletion env _) as [resp [e' |]]; [| discriminate Hfail].
    rewrite Hcase in Hs. exists content, (set_messages st0 (messages st0 ++ [userMsg content])), sc1.
    cbn [messages set_messages Messages]. rewrite <- Hm. repeat split. exact Hs.
Qed.

(** Whatever a pass does, [messages] afterwards are the ones before with
    zero or more messages added at the end. *)
Lemma iteration_appends (env : Env) (config : Config) (st : Session) (sc : Scanner)
    (c : LoopCtl) (st' : Session) (sc' : Scanner) :
  snd (iteration env config st sc) = Some (c, st', sc') ->
  exists added, messages st' = messages st ++ added.
Proof.
  intro Hit.
  destruct (iteration_shape env config st sc)
    as [[_ (c0 & s0 & sc0 & Hs & Hm)] | (st0 & content & pfx & sc1 & Hm & _ & Hs)].
  - rewrite Hs in Hit. injection Hit as -> -> ->.
    destruct Hm as [-> | [content ->]].
    + exists []. now rewrite app_nil_r.
    + eexists. reflexivity.
  - pose proof (sendTurn_cases env config st0 content pfx) as Ht.
    cbv zeta in Ht. destruct Ht as [_ Hcase].
    destruct (CreateChatCompletion env _) as [resp [e' |]];
      [| destruct (Choices resp) as [| choice others]];
      rewrite Hcase in Hs; rewrite Hs in Hit; try discriminate Hit;
      injection Hit as _ <- _; cbn [messages set_messages]; rewrite Hm.
    + eexists. reflexivity.
    + rewrite <- app_assoc. eexists. reflexivity.
Qed.

(** ** The quit command *)

(** C1, as amended.  In single-line mode a line whose lower-case form is
    [:q] ends the loop: the pass prints its farewell and returns, with the
    session as it was and no request sent.  In multi-line mode the same
    line is no command: it joins the pending lines and the inner loop goes
    on. *)
Theorem quit_command (env : Env) (config : Config) (st : Session)
    (line : string) (rest : list string) (fin : option error) :
  ToLower line = cmdQuit ->
  (isMultiline st = false ->
   iteration env config st (Pending (line :: rest) fin) =
     ([promptOf env config st;
       Stdout ("Exiting interactive mode." ++ nl)%string; Stdout nl],
      Some (Return, st, Pending rest fin)) /\
   forall fuel,
     snd (interactiveLoop env (S fuel) config st (Pending (line :: rest) fin)) =
     Some (Some st)) /\
  (isMultiline st = true ->
   multilineLine st line = ([], Some (Next, set_lines st (lines st ++ [line])))).
Proof.
  intro Hq. split; intro Hmode.
  - assert (Hit : iteration env config st (Pending (line :: rest) fin) =
                  ([promptOf env config st;
                    Stdout ("Exiting interactive mode." ++ nl)%string; Stdout nl],
                   Some (Return, st, Pending rest fin))).
    { unfold iteration, promptOf. rewrite Hmode. cbn [Scan]. rewrite Hq. reflexivity. }
    split; [exact Hit |]. intro fuel. cbn [interactiveLoop]. rewrite Hit. reflexivity.
  - unfold multilineLine. rewrite (ToLower_colon line "q" Hq), Hq. reflexivity.
Qed.

Lemma quit_command_witness :
  ToLower ":Q" = cmdQuit /\
  snd (interactiveLoop (demoEnv "" true remoteOk) 1 demoConfig
         (initialSession demoConfig) (Pending [":Q"; "never read"] None)) =
  Some (Some (initialSession demoConfig)).
Proof.
  split; [reflexivity |].
  apply (quit_command (demoEnv "" true remoteOk) demoConfig (initialSession demoConfig)
           ":Q" ["never read"] None);
    reflexivity.
Defined.

(** C1 as stated fails in multi-line mode: there a pass that reads [:q]
    and then [:end] does not return; it sends [:q] to the model as the
    user's message. *)
Lemma quit_in_multiline_counterexample :
  ToLower ":q" = cmdQuit /\
  isMultiline (multilineSession []) = true /\
  iteration (demoEnv "" true remoteOk) demoConfig (multilineSession [])
    (Pending [":q"; ":end"] None) =
  ([Stdout "(~/p) [Multiline] You: "; Stdout nl;
    RemoteCall {| openai.Model := "gpt-x";
                  Messages := [systemMsg "be terse"; userMsg ":q"] |};
    Stdout (nl ++ "Bot (gpt-x): ")%string; Stdout "ok"; Stdout nl],
   Some (Next,
         {| messages := [systemMsg "be terse"; userMsg ":q"; assistantMsg "ok"];
            contextFile := ""; isMultiline := true; lines := [":q"] |},
         Pending [] None)).
Proof. repeat split. Qed.

(** ** The end command *)

(** C2, on the code.  [:end] leaves the inner loop and the pending lines
    are sent, but nothing empties them: after the pass [lines] still holds
    ["a"], in multi-line mode, and the next [:end] sends ["a"] again in
    front of the new line. *)
Theorem end_keeps_pending_lines :
  let env := demoEnv "" true remoteOk in
  let after :=
    {| messages := [systemMsg "be terse"; userMsg "a"; assistantMsg "ok"];
       contextFile := ""; isMultiline := true; lines := ["a"] |} in
  snd (iteration env demoConfig (multilineSession ["a"]) (Pending [":end"; "b"; ":end"] None)) =
    Some (Next, after, Pending ["b"; ":end"] None) /\
  remoteCalls (fst (iteration env demoConfig after (Pending ["b"; ":end"] None))) =
    [ {| openai.Model := "gpt-x";
         Messages := [systemMsg "be terse"; userMsg "a"; assistantMsg "ok";
                      userMsg ("a" ++ nl ++ "b")%string] |} ] /\
  snd (iteration (demoEnv "" true remoteDown) demoConfig (multilineSession ["a"])
         (Pending [":end"] None)) =
    Some (Next,
          {| messages := [systemMsg "be terse"; userMsg "a"];
             contextFile := ""; isMultiline := true; lines := ["a"] |},
          Pending [] None).
Proof. repeat split. Qed.

(** ** A failed call *)

(** C3, as amended.  When the call of a pass fails, [messages] afterwards
    are the ones before followed by the single user message of the turn,
    which is what the failed request carried; the pass ends at [continue]. *)
Theorem failed_turn_transcript (env : Env) (config : Config) (st : Session) (sc : Scanner)
    (req : ChatCompletionRequest) (e : error) :
  In req (remoteCalls (fst (iteration env config st sc))) ->
  snd (CreateChatCompletion env req) = Some e ->
  exists content st' sc',
    snd (iteration env config st sc) = Some (Next, st', sc') /\
    messages st' = messages st ++ [userMsg content] /\
    Messages req = messages st ++ [userMsg content].
Proof.
  intros Hin Hfail.
  destruct (failed_call_pass env config st sc req e Hin Hfail)
    as (content & st' & sc' & Hs & Hm & Hr).
  exists content, st', sc'. repeat split; congruence.
Qed.

Lemma failed_turn_transcript_witness :
  let env := demoEnv "" true remoteDown in
  let st := initialSession demoConfig in
  let req := {| openai.Model := "gpt-x"; Messages := [systemMsg "be terse"; userMsg "hi"] |} in
  In req (remoteCalls (fst (iteration env demoConfig st (Pending ["hi"] None)))) /\
  snd (CreateChatCompletion env req) = Some "connection refused" /\
  exists content st' sc',
    snd (iteration env demoConfig st (Pending ["hi"] None)) = Some (Next, st', sc') /\
    messages st' = messages st ++ [userMsg content] /\
    Messages req = messages st ++ [userMsg content].
Proof.
  intros env st req.
  assert (Hin : In req (remoteCalls (fst (iteration env demoConfig st (Pending ["hi"] None)))))
    by (left; reflexivity).
  assert (Hfail : snd (CreateChatCompletion env req) = Some "connection refused")
    by reflexivity.
  split; [exact Hin |]. split; [exact Hfail |].
  exact (failed_turn_transcript env demoConfig st (Pending ["hi"] None) req
           "connection refused" Hin Hfail).
Defined.

(** C3 as stated fails: after a turn whose call failed the transcript is
    not the one before the turn, the user's message [hi] has stayed. *)
Lemma failed_turn_counterexample :
  let env := demoEnv "" true remoteDown in
  let st := initialSession demoConfig in
  let req := {| openai.Model := "gpt-x"; Messages := [systemMsg "be terse"; userMsg "hi"] |} in
  exists st' sc',
    remoteCalls (fst (iteration env demoConfig st (Pending ["hi"] None))) = [req] /\
    snd (CreateChatCompletion env req) = Some "connection refused" /\
    snd (iteration env demoConfig st (Pending ["hi"] None)) = Some (Next, st', sc') /\
    messages st = [systemMsg "be terse"] /\
    messages st' = [systemMsg "be terse"; userMsg "hi"] /\
    messages st' <> messages st.
Proof.
  intros env st req. eexists. eexists.
  repeat split; try reflexivity. cbn. discriminate.
Qed.

(** C4.  When the call of a pass fails, no assistant message is among the
    messages the pass adds, the pass ends at [continue], and the loop goes
    into its next pass with the session the failed one left. *)
Theorem failed_call_no_assistant (env : Env) (config : Config) (st : Session) (sc : Scanner)
    (req : ChatCompletionRequest) (e : error) :
  In req (remoteCalls (fst (iteration env config st sc))) ->
  snd (CreateChatCompletion env req) = Some e ->
  exists added st' sc',
    snd (iteration env config st sc) = Some (Next, st', sc') /\
    messages st' = messages st ++ added /\
    Forall (fun m => Role m <> ChatMessageRoleAssistant) added /\
    forall fuel,
      interactiveLoop env (S fuel) config st sc =
      (fst (iteration env config st sc) ++ fst (interactiveLoop env fuel config st' sc'),
       snd (interactiveLoop env fuel config st' sc')).
Proof.
  intros Hin Hfail.
  destruct (failed_call_pass env config st sc req e Hin Hfail)
    as (content & st' & sc' & Hs & Hm & _).
  exists [userMsg content], st', sc'. repeat split; try assumption.
  - constructor; [discriminate | constructor].
  - intro fuel. cbn [interactiveLoop]. unfold bind. rewrite Hs. reflexivity.
Qed.

Lemma failed_call_no_assistant_witness :
  let env := demoEnv "" true remoteDown in
  let st := multilineSession [] in
  let sc := Pending ["first"; "second"; ":end"; ":multi"; ":q"] None in
  let req := {| openai.Model := "gpt-x";
                Messages := [systemMsg "be terse"; userMsg ("first" ++ nl ++ "second")%string] |} in
  In req (remoteCalls (fst (iteration env demoConfig st sc))) /\
  snd (CreateChatCompletion env req) = Some "connection refused" /\
  exists added st' sc',
    snd (iteration env demoConfig st sc) = Some (Next, st', sc') /\
    messages st' = messages st ++ added /\
    Forall (fun m => Role m <> ChatMessageRoleAssistant) added /\
    forall fuel,
      interactiveLoop env (S fuel) demoConfig st sc =
      (fst (iteration env demoConfig st sc) ++ fst (interactiveLoop env fuel demoConfig st' sc'),
       snd (interactiveLoop env fuel demoConfig st' sc')).
Proof.
  intros env st sc req.
  assert (Hin : In req (remoteCalls (fst (iteration env demoConfig st sc))))
    by (left; reflexivity).
  assert (Hfail : snd (CreateChatCompletion env req) = Some "connection refused")
    by reflexivity.
  split; [exact Hin |]. split; [exact Hfail |].
  exact (failed_call_no_assistant env demoConfig st sc req "connection refused" Hin Hfail).
Defined.

(** ** The file command *)

(** C5.  In single-line mode a line that starts with [":file "] names the
    file that follows the prefix.  The pass sends no request.  If the file
    is read, the pass adds the one user message
    ["Content of <fileName>:\n<content>"] and sets [contextFile] to the
    name; if not, it leaves the session as it was. *)
Theorem file_command (env : Env) (config : Config) (st : Session)
    (line : string) (rest : list string) (fin : option error) :
  isMultiline st = false ->
  HasPrefix line cmdFile = true ->
  let fileName := TrimPrefix line cmdFile in
  let pass := iteration env config st (Pending (line :: rest) fin) in
  line = (cmdFile ++ fileName)%string /\
  remoteCalls (fst pass) = [] /\
  match ReadFile env fileName with
  | (_, Some _) => snd pass = Some (Next, st, Pending rest fin)
  | (content, None) =>
      snd pass =
      Some (Next,
            {| messages :=
                 messages st ++
                 [userMsg ("Content of " ++ fileName ++ ":" ++ nl ++ content)%string];
               contextFile := fileName;
               isMultiline := false;
               lines := lines st |},
            Pending rest fin)
  end.
Proof.
  intros Hmode Hfile fileName pass.
  split; [symmetry; apply TrimPrefix_strips; exact Hfile |].
  destruct (file_line_is_no_command line Hfile) as [Hq Hm].
  subst pass. unfold iteration. rewrite Hmode. cbn [Scan].
  rewrite Hq, Hm, Hfile. unfold readFile. fold fileName.
  destruct (ReadFile env fileName) as [content [e |]].
  - split; reflexivity.
  - split; [reflexivity |]. cbn. unfold set_contextFile, set_messages. cbn.
    rewrite Hmode. reflexivity.
Qed.

Lemma file_command_witness :
  HasPrefix ":file notes.txt" cmdFile = true /\
  snd (iteration (demoEnv "" true remoteDown) demoConfig (initialSession demoConfig)
         (Pending [":file notes.txt"] None)) =
  Some (Next,
        {| messages := [systemMsg "be terse";
                        userMsg ("Content of notes.txt:" ++ nl ++ "hello")%string];
           contextFile := "notes.txt"; isMultiline := false; lines := [] |},
        Pending [] None).
Proof.
  split; [reflexivity |].
  exact (proj2 (proj2 (file_command (demoEnv "" true remoteDown) demoConfig
                         (initialSession demoConfig) ":file notes.txt" [] None
                         eq_refl eq_refl))).
Defined.

(** ** Removing the last pending line *)

(** The slice [lines[:len(lines)-1]] of a slice that ends in [last]. *)
Lemma drop_last {A : Type} (earlier : list A) (last : A) :
  firstn (length (earlier ++ [last]) - 1) (earlier ++ [last]) = earlier.
Proof.
  rewrite length_app. cbn [length]. replace (length earlier + 1 - 1) with (length earlier) by lia.
  rewrite firstn_app, Nat.sub_diag, firstn_all. cbn. apply app_nil_r.
Qed.

(** C7.  In multi-line mode a line whose lower-case form is [:remove]
    prints a notice and lets the inner loop go on with the next line, the
    session still in multi-line mode.  With no pending line the notice is
    [No lines to remove.] and nothing changes; otherwise the last pending
    line goes and the earlier ones stay, in order. *)
Theorem remove_command (st : Session) (line : string)
    (rest : list string) (fin : option error) :
  isMultiline st = true ->
  ToLower line = cmdRemove ->
  exists notice st',
    multilineLine st line = ([Stdout (notice ++ nl)%string; Stdout nl], Some (Next, st')) /\
    scanLines (line :: rest) fin st =
      ([Stdout (notice ++ nl)%string; Stdout nl] ++ fst (scanLines rest fin st'),
       snd (scanLines rest fin st')) /\
    isMultiline st' = true /\
    messages st' = messages st /\
    contextFile st' = contextFile st /\
    (lines st = [] -> notice = "No lines to remove." /\ st' = st) /\
    (forall earlier last,
        lines st = earlier ++ [last] ->
        notice = "Last line removed." /\ lines st' = earlier).
Proof.
  intros Hmode Hr.
  assert (Hbody : forall notice st',
             multilineLine st line =
               ([Stdout (notice ++ nl)%string; Stdout nl], Some (Next, st')) ->
             scanLines (line :: rest) fin st =
               ([Stdout (notice ++ nl)%string; Stdout nl] ++ fst (scanLines rest fin st'),
                snd (scanLines rest fin st'))).
  { intros notice st' H. cbn [scanLines]. rewrite (bind_returns _ _ _ _ H). reflexivity. }
  assert (Hline : multilineLine st line =
                  if (0 <? length (lines st))%nat
                  then ([Stdout ("Last line removed." ++ nl)%string; Stdout nl],
                        Some (Next, set_lines st (firstn (length (lines st) - 1) (lines st))))
                  else ([Stdout ("No lines to remove." ++ nl)%string; Stdout nl],
                        Some (Next, st))).
  { unfold multilineLine. rewrite (ToLower_colon line "remove" Hr), Hr.
    cbn [String.eqb]. destruct (0 <? length (lines st))%nat; reflexivity. }
  destruct (lines st) as [| l ls] eqn:Hlines.
  - exists "No lines to remove.", st. cbn in Hline.
    split; [exact Hline |]. split; [apply Hbody; exact Hline |].
    split; [exact Hmode |]. split; [reflexivity |]. split; [reflexivity |].
    split.
    + intros _. split; reflexivity.
    + intros earlier last H. destruct earlier; discriminate H.
  - set (st' := set_lines st (firstn (length (l :: ls) - 1) (l :: ls))).
    exists "Last line removed.", st'.
    change (0 <? length (l :: ls))%nat with true in Hline. cbn iota in Hline.
    split; [exact Hline |]. split; [apply Hbody; exact Hline |].
    split; [exact Hmode |]. split; [reflexivity |]. split; [reflexivity |].
    split.
    + intro H. discriminate H.
    + intros earlier last H. split; [reflexivity |].
      subst st'. cbn [lines set_lines]. rewrite H. apply drop_last.
Qed.

Lemma remove_command_witness :
  ToLower ":Remove" = cmdRemove /\
  exists notice st',
    multilineLine (multilineSession ["a"; "b"]) ":Remove" =
      ([Stdout (notice ++ nl)%string; Stdout nl], Some (Next, st')) /\
    lines st' = ["a"].
Proof.
  split; [reflexivity |].
  destruct (remove_command (multilineSession ["a"; "b"]) ":Remove" [] None eq_refl eq_refl)
    as (notice & st' & Hline & _ & _ & _ & _ & _ & Hlast).
  exists notice, st'. split; [exact Hline |].
  exact (proj2 (Hlast ["a"] "b" eq_refl)).
Defined.

(** ** The context file *)

(** A turn changes [messages] only. *)
Lemma sendTurn_only_messages (env : Env) (config : Config) (st st' : Session)
    (content pfx : string) :
  snd (sendTurn env config st content pfx) = Some st' ->
  exists ms, st' = set_messages st ms.
Proof.
  intro H. pose proof (sendTurn_cases env config st content pfx) as Ht.
  cbv zeta in Ht. destruct Ht as [_ Hcase].
  destruct (CreateChatCompletion env _) as [resp [e |]];
    [| destruct (Choices resp) as [| choice others]];
    rewrite Hcase in H; try discriminate H; injection H as <-; eexists; reflexivity.
Qed.

(** A pass that prints, makes a turn and ends at the closing brace. *)
Lemma turn_pass (env : Env) (config : Config) (st : Session) (content pfx : string)
    (before : list Effect) (sc1 : Scanner) :
  remoteCalls before = [] ->
  let pass :=
    (before, Some tt) ;;;
    (st1 <- sendTurn env config st content pfx ;; ret (Next, st1, sc1)) in
  remoteCalls (fst pass) =
    [ {| openai.Model := Model config; Messages := messages st ++ [userMsg content] |} ] /\
  forall c st' sc',
    snd pass = Some (c, st', sc') ->
    c = Next /\ sc' = sc1 /\ snd (sendTurn env config st content pfx) = Some st'.
Proof.
  intros Hq pass. subst pass.
  pose proof (sendTurn_cases env config st content pfx) as Ht.
  cbv zeta in Ht. destruct Ht as [Hreq _].
  destruct (sendTurn env config st content pfx) as [o [s |]];
    io_step; cbn [fst snd] in Hreq; rewrite ?app_nil_r, remoteCalls_app, Hq, Hreq.
  - split; [reflexivity |]. intros c st' sc' H. injection H as <- <- <-. repeat split.
  - split; [reflexivity |]. intros c st' sc' H. discriminate H.
Qed.

(** C6.  With a context file [f] set: a plain line [L] in single-line
    mode is sent as the user message ["(Context: f) L"]; what multi-line
    mode sends is the pending lines joined by line feeds and nothing else;
    and a pass leaves [contextFile] as it was unless it is a [":file "]
    line of single-line mode whose file was read. *)
Theorem context_prefix (env : Env) (config : Config) (st : Session) (sc : Scanner) :
  contextFile st <> "" ->
  let pass := iteration env config st sc in
  (forall L rest fin,
      sc = Pending (L :: rest) fin ->
      isMultiline st = false ->
      (ToLower L =? cmdQuit)%string = false ->
      (ToLower L =? cmdMulti)%string = false ->
      HasPrefix L cmdFile = false ->
      let sent := userMsg ("(Context: " ++ contextFile st ++ ") " ++ L)%string in
      remoteCalls (fst pass) =
        [ {| openai.Model := Model config; Messages := messages st ++ [sent] |} ] /\
      forall c st' sc',
        snd pass = Some (c, st', sc') ->
        exists reply, messages st' = messages st ++ sent :: reply) /\
  (isMultiline st = true ->
   forall out sc1 st1 req,
     multilineLoop sc st = (out, Some (sc1, st1)) ->
     In req (remoteCalls (fst pass)) ->
     Messages req = messages st ++ [userMsg (Join (lines st1) nl)]) /\
  (forall c st' sc',
      snd pass = Some (c, st', sc') ->
      contextFile st' = contextFile st \/
      (isMultiline st = false /\
       exists L,
         L = snd (fst (Scan sc)) /\
         HasPrefix L cmdFile = true /\
         snd (ReadFile env (TrimPrefix L cmdFile)) = None /\
         contextFile st' = TrimPrefix L cmdFile)).
Proof.
  intros Hset pass.
  assert (Hne : (contextFile st =? "")%string = false)
    by (apply String.eqb_neq; exact Hset).
  split; [| split].
  - intros L rest fin -> Hmode Hq Hm Hf sent.
    assert (Hpass : pass =
              ([promptOf env config st], Some tt) ;;;
              (st1 <- sendTurn env config st (Content sent) "Error: " ;;
               ret (Next, st1, Pending rest fin))).
    { subst pass. unfold iteration, promptOf. rewrite Hmode. cbn [Scan].
      rewrite Hq, Hm, Hf, Hne. reflexivity. }
    destruct (turn_pass env config st (Content sent) "Error: "
                [promptOf env config st] (Pending rest fin) eq_refl) as [Hcalls Hres].
    rewrite <- Hpass in Hcalls, Hres. split; [exact Hcalls |].
    intros c st' sc' Hs. destruct (Hres c st' sc' Hs) as (_ & _ & Ht).
    pose proof (sendTurn_cases env config st (Content sent) "Error: ") as Hc.
    cbv zeta in Hc. destruct Hc as [_ Hcase].
    destruct (CreateChatCompletion env _) as [resp [e |]];
      [| destruct (Choices resp) as [| choice others]];
      rewrite Hcase in Ht; try discriminate Ht; injection Ht as <-;
      cbn [messages set_messages].
    + exists []. reflexivity.
    + rewrite <- app_assoc. eexists. reflexivity.
  - intros Hmode out sc1 st1 req Hloop Hin.
    destruct (multilineLoop_quiet sc st) as (out' & sc1' & st1' & Hl & Hq & Hm & _).
    rewrite Hloop in Hl. injection Hl as <- <- <-.
    subst pass. unfold iteration in Hin. rewrite Hmode in Hin.
    io_step in Hin. rewrite Hloop in Hin. io_step in Hin.
    destruct (ScanErr sc1) as [e |]; [| destruct (0 <? length (lines st1))%nat].
    + cbn [fst remoteCalls] in Hin. rewrite remoteCalls_app, Hq in Hin.
      cbn in Hin. destruct Hin.
    + pose proof (sendTurn_cases env config st1 (Join (lines st1) nl)
                    "Error communicating with AI: ") as Hc.
      cbv zeta in Hc. destruct Hc as [Hreq _].
      destruct (sendTurn env config st1 _ _) as [o [s |]];
        io_step in Hin; cbn [fst] in Hreq; cbn [remoteCalls] in Hin;
        rewrite ?app_nil_r, remoteCalls_app, Hq, Hreq in Hin;
        destruct Hin as [<- | []]; cbn [Messages]; now rewrite Hm.
    + cbn [fst remoteCalls] in Hin. rewrite remoteCalls_app, Hq in Hin.
      cbn in Hin. destruct Hin.
  - intros c st' sc' Hs. subst pass. unfold iteration in Hs.
    destruct (isMultiline st) eqn:Hmode.
    + left.
      destruct (multilineLoop_quiet sc st) as (out & sc1 & st1 & Hl & _ & _ & Hf).
      io_step in Hs. rewrite Hl in Hs. io_step in Hs.
      destruct (ScanErr sc1) as [e |]; [| destruct (0 <? length (lines st1))%nat].
      * injection Hs as _ <- _. exact Hf.
      * destruct (sendTurn env config st1 _ _) as [o [s |]] eqn:Ht;
          cbn [fst snd] in Hs; [| discriminate Hs].
        injection Hs as _ <- _.
        destruct (sendTurn_only_messages env config st1 s _ _ (f_equal snd Ht)) as [ms ->].
        exact Hf.
      * injection Hs as _ <- _. exact Hf.
    + destruct (Scan sc) as [[b L] sc1]. cbn [fst snd].
      destruct (ToLower L =? cmdQuit)%string; [injection Hs as _ <- _; now left |].
      destruct (ToLower L =? cmdMulti)%string; [injection Hs as _ <- _; now left |].
      destruct (HasPrefix L cmdFile) eqn:Hfile.
      * unfold readFile in Hs.
        destruct (ReadFile env (TrimPrefix L cmdFile)) as [content [e |]] eqn:Hread;
          injection Hs as _ <- _; [now left |].
        right. split; [reflexivity |]. exists L. rewrite Hread. repeat split. exact Hfile.
      * left. rewrite Hne in Hs. io_step in Hs.
        destruct (sendTurn env config st _ _) as [o [s |]] eqn:Ht;
          cbn [fst snd] in Hs; [| discriminate Hs].
        injection Hs as _ <- _.
        destruct (sendTurn_only_messages env config st s _ _ (f_equal snd Ht)) as [ms ->].
        reflexivity.
Qed.

Lemma context_prefix_witness :
  contextFile notesSession <> "" /\
  remoteCalls (fst (iteration (demoEnv "" true remoteOk) demoConfig notesSession
                      (Pending ["what next?"] None))) =
  [ {| openai.Model := "gpt-x";
       Messages := messages notesSession ++ [userMsg "(Context: notes.txt) what next?"] |} ] /\
  (forall req,
      In req (remoteCalls (fst (iteration (demoEnv "" true remoteOk) demoConfig
                                  (set_isMultiline notesSession true)
                                  (Pending ["x"; "y"; ":end"] None))) ) ->
      Messages req = messages notesSession ++ [userMsg ("x" ++ nl ++ "y")%string]).
Proof.
  assert (Hset : contextFile notesSession <> "") by discriminate.
  split; [exact Hset |]. split.
  - exact (proj1 (proj1 (context_prefix (demoEnv "" true remoteOk) demoConfig notesSession
                           (Pending ["what next?"] None) Hset)
                    "what next?" [] None eq_refl eq_refl eq_refl eq_refl eq_refl)).
  - intros req Hin.
    exact (proj1 (proj2 (context_prefix (demoEnv "" true remoteOk) demoConfig
                           (set_isMultiline notesSession true)
                           (Pending ["x"; "y"; ":end"] None) Hset))
             eq_refl [] (Pending [] None)
             (set_lines (set_isMultiline notesSession true) ["x"; "y"]) req eq_refl Hin).
Defined.

(** ** The transcript *)

(** C8.  In every session the loop can reach, [messages] starts with the
    system message made of the configured system prompt, and every pass
    from there leaves [messages] as they are or longer at the end: the
    old messages are a prefix of the new ones. *)
Theorem transcript_invariant (config : Config) (st : Session) :
  reachable config st ->
  (exists rest, messages st = systemMsg (SystemPrompt config) :: rest) /\
  (forall env sc c st' sc',
      snd (iteration env config st sc) = Some (c, st', sc') ->
      exists added, messages st' = messages st ++ added).
Proof.
  intro Hreach. split.
  - induction Hreach as [| env st sc c st' sc' _ [rest IH] Hpass].
    + exists []. reflexivity.
    + destruct (iteration_appends env config st sc c st' sc' Hpass) as [added ->].
      rewrite IH. exists (rest ++ added). reflexivity.
  - intros env sc c st' sc'. apply iteration_appends.
Qed.

Lemma transcript_invariant_witness :
  reachable demoConfig greetedSession /\
  exists rest, messages greetedSession = systemMsg "be terse" :: rest.
Proof.
  assert (Hreach : reachable demoConfig greetedSession).
  { apply (reach_pass demoConfig (demoEnv "" true remoteOk) (initialSession demoConfig)
             (Pending ["hi"] None) Next greetedSession (Pending [] None)).
    - apply reach_init.
    - reflexivity. }
  split; [exact Hreach |].
  exact (proj1 (transcript_invariant demoConfig greetedSession Hreach)).
Defined.

(** ** The single-shot run *)

(** What a run without [-i] sends: one request when the configuration
    loads, the key is there and a prompt is given, none otherwise. *)
Lemma main_single_shot_calls (env : Env) (fuel : nat) (stdin : Scanner) :
  flagInteractive env = false ->
  let config := fst (loadConfig env "config.json") in
  remoteCalls (fst (main env fuel stdin)) =
  match snd (loadConfig env "config.json") with
  | Some _ => []
  | None =>
      if (Getenv env "OPENAI_API_KEY" =? "")%string || (flagPrompt env =? "")%string
      then []
      else [ {| openai.Model := Model config;
                Messages := [systemMsg (SystemPrompt config); userMsg (flagPrompt env)] |} ]
  end.
Proof.
  intros Hi config. subst config. unfold main.
  destruct (loadConfig env "config.json") as [config [e |]]; [reflexivity |].
  cbn [fst snd]. rewrite Hi.
  destruct (Getenv env "OPENAI_API_KEY" =? "")%string; [reflexivity |].
  destruct (flagPrompt env =? "")%string; [reflexivity |].
  cbn [orb]. unfold callOpenAI.
  destruct (CreateChatCompletion env _) as [resp [e |]]; [reflexivity |].
  destruct (Choices resp) as [| choice others]; [reflexivity |].
  destruct (printFormattedResponse_quiet env (Content (Message choice))
              (Style config) (AIName config) (Model config)) as (out & perr & Hp & Hq).
  io_step. rewrite Hp. destruct perr as [e |]; io_step; cbn [remoteCalls];
    rewrite ?remoteCalls_app, Hq; reflexivity.
Qed.

(** C9.  In a run without [-i], with the system prompt [S] of the loaded
    configuration and the prompt [P] of the command line, any request
    sent carries exactly the messages [system S; user P], and with a
    configuration that loads, a key and a prompt that is not empty, that
    one request is sent. *)
Theorem single_shot_transcript (env : Env) (fuel : nat) (stdin : Scanner) :
  flagInteractive env = false ->
  let config := fst (loadConfig env "config.json") in
  let req := {| openai.Model := Model config;
                Messages := [systemMsg (SystemPrompt config); userMsg (flagPrompt env)] |} in
  (forall r, In r (remoteCalls (fst (main env fuel stdin))) -> r = req) /\
  (snd (loadConfig env "config.json") = None ->
   Getenv env "OPENAI_API_KEY" <> "" ->
   flagPrompt env <> "" ->
   remoteCalls (fst (main env fuel stdin)) = [req]).
Proof.
  intros Hi config req.
  pose proof (main_single_shot_calls env fuel stdin Hi) as Hcalls.
  cbv zeta in Hcalls. fold config in Hcalls. fold req in Hcalls.
  split.
  - intros r Hin. rewrite Hcalls in Hin.
    destruct (snd (loadConfig env "config.json")); [destruct Hin |].
    destruct ((Getenv env "OPENAI_API_KEY" =? "")%string || (flagPrompt env =? "")%string);
      [destruct Hin |].
    destruct Hin as [<- | []]. reflexivity.
  - intros Hload Hkey Hprompt. rewrite Hcalls, Hload.
    apply String.eqb_neq in Hkey, Hprompt. rewrite Hkey, Hprompt. reflexivity.
Qed.

Lemma single_shot_transcript_witness :
  flagInteractive (demoEnv "2+2" false remoteOk) = false /\
  remoteCalls (fst (main (demoEnv "2+2" false remoteOk) 0 (Pending [] None))) =
  [ {| openai.Model := "gpt-x";
       Messages := [ {| Role := ChatMessageRoleSystem; Content := "be terse" |};
                     {| Role := ChatMessageRoleUser; Content := "2+2" |} ] |} ].
Proof.
  split; [reflexivity |].
  apply (proj2 (single_shot_transcript (demoEnv "2+2" false remoteOk) 0 (Pending [] None)
                  eq_refl)).
  - reflexivity.
  - discriminate.
  - discriminate.
Defined.

(** ** The first choice of a response *)

(** C10.  [callOpenAI] sends the request and then: passes on the error
    of a failed call; gives the content of the first choice of a
    response that has one; and panics on a response that came without
    error and without a choice, which is the only way it panics.  So it
    returns on every call exactly when no call answers without error and
    with no choice. *)
Theorem callOpenAI_first_choice (env : Env) (config : Config)
    (messages : list ChatCompletionMessage) :
  let req := {| openai.Model := Model config; Messages := messages |} in
  let answer := CreateChatCompletion env req in
  let result := callOpenAI env config messages in
  fst result = [RemoteCall req] /\
  match snd answer with
  | Some e => snd result = Some ("", Some e)
  | None =>
      match Choices (fst answer) with
      | [] => snd result = None
      | choice :: _ => snd result = Some (Content (Message choice), None)
      end
  end /\
  (snd result = None <-> snd answer = None /\ Choices (fst answer) = []).
Proof.
  intros req answer result. subst result answer. unfold callOpenAI. fold req.
  destruct (CreateChatCompletion env req) as [resp [e |]]; cbn [fst snd].
  - split; [reflexivity |]. split; [reflexivity |].
    split; intro H; [discriminate H | destruct H as [H _]; discriminate H].
  - destruct (Choices resp) as [| choice others]; io_step.
    + split; [reflexivity |]. split; [reflexivity |]. split; intros _; [split |]; reflexivity.
    + split; [reflexivity |]. split; [reflexivity |].
      split; intro H; [discriminate H | destruct H as [_ H]; discriminate H].
Qed.

(** A turn answered without error and without a choice: the pass panics
    after the request, and the user message it had appended is lost with
    the process. *)
Example pass_panics_without_choice :
  iteration (demoEnv "" true remoteEmpty) demoConfig (initialSession demoConfig)
    (Pending ["hi"] None) =
  ([Stdout "(~/p) You: ";
    RemoteCall {| openai.Model := "gpt-x";
                  Messages := [systemMsg "be terse"; userMsg "hi"] |}],
   None).
Proof. reflexivity. Qed.

(** * Further properties of the program *)

(** ** Starting up *)

(** X1.  When [config.json] cannot be opened, or cannot be decoded,
    [main] prints [Error loading config:] with the error and ends with
    status 1, and that is all it does: this comes before the flags are
    parsed and before the key is looked up, so no request is sent
    whatever the flags, the key and the input are. *)
Theorem main_config_failure (env : Env) (fuel : nat) (stdin : Scanner) :
  Open env "config.json" <> None \/ snd (Decode env "config.json") <> None ->
  exists e,
    snd (loadConfig env "config.json") = Some e /\
    main env fuel stdin =
    ([Stdout ("Error loading config: " ++ e ++ nl)%string], Some (Some 1)).
Proof.
  intro Hbad. unfold main, loadConfig.
  destruct (Open env "config.json") as [e |].
  - exists e. split; reflexivity.
  - destruct (Decode env "config.json") as [config [e |]]; cbn [snd] in Hbad.
    + exists e. split; reflexivity.
    + destruct Hbad as [Hbad | Hbad]; contradiction Hbad; reflexivity.
Qed.

Lemma main_config_failure_witness :
  let env := {| Open := fun _ => Some "open config.json: no such file or directory";
                Decode := fun _ => (demoConfig, None);
                flagPrompt := "2+2";
                flagInteractive := false;
                Getenv := fun _ => "key";
                CreateChatCompletion := remoteOk;
                ReadFile := fun _ => ("", None);
                Getwd := ("/", None);
                UserCurrent := ("/root", None);
                lipglossRender := fun _ _ text => text;
                NewTermRenderer := fun _ => None;
                glamourRender := fun _ text => (text, None) |} in
  Open env "config.json" <> None /\
  exists e,
    snd (loadConfig env "config.json") = Some e /\
    main env 3 (Pending ["hi"; ":q"] None) =
    ([Stdout ("Error loading config: " ++ e ++ nl)%string], Some (Some 1)).
Proof.
  intro env.
  assert (H : Open env "config.json" <> None) by discriminate.
  split; [exact H |].
  exact (main_config_failure env 3 (Pending ["hi"; ":q"] None) (or_introl H)).
Defined.

(** X2.  A run without [-i] that gets as far as the call ends by itself,
    whatever the input and the number of passes allowed: with status 1
    when the call fails, in a panic when the answer has no choice, and
    otherwise with status 0 if the reply was rendered and 1 if not. *)
Theorem single_shot_exit_status (env : Env) (fuel : nat) (stdin : Scanner) (config : Config) :
  loadConfig env "config.json" = (config, None) ->
  Getenv env "OPENAI_API_KEY" <> "" ->
  flagInteractive env = false ->
  flagPrompt env <> "" ->
  let answer :=
    CreateChatCompletion env
      {| openai.Model := Model config;
         Messages := [systemMsg (SystemPrompt config); userMsg (flagPrompt env)] |} in
  match snd answer with
  | Some _ => snd (main env fuel stdin) = Some (Some 1)
  | None =>
      match Choices (fst answer) with
      | [] => snd (main env fuel stdin) = None
      | choice :: _ =>
          snd (main env fuel stdin) =
          match snd (printFormattedResponse env (Content (Message choice))
                       (Style config) (AIName config) (Model config)) with
          | Some None => Some (Some 0)
          | _ => Some (Some 1)
          end
      end
  end.
Proof.
  intros Hload Hkey Hi Hp answer. subst answer. unfold main. rewrite Hload, Hi.
  apply String.eqb_neq in Hkey, Hp. rewrite Hkey, Hp. unfold callOpenAI.
  destruct (CreateChatCompletion env _) as [resp [e |]]; cbn [fst snd]; [reflexivity |].
  destruct (Choices resp) as [| choice others]; [reflexivity |].
  destruct (printFormattedResponse_quiet env (Content (Message choice))
              (Style config) (AIName config) (Model config)) as (out & perr & Hprint & _).
  io_step. rewrite Hprint. destruct perr as [e |]; reflexivity.
Qed.

Lemma single_shot_exit_status_witness :
  snd (main (demoEnv "2+2" false remoteDown) 0 (Stopped None)) = Some (Some 1).
Proof.
  exact (single_shot_exit_status (demoEnv "2+2" false remoteDown) 0 (Stopped None) demoConfig
           eq_refl ltac:(discriminate) eq_refl ltac:(discriminate)).
Defined.

(** X3.  A run with [-i] whose first input line is [:q] in any case ends
    with status 0 and sends no request; the prompt flag plays no part. *)
Theorem interactive_quit_exit_status (env : Env) (fuel : nat) (config : Config)
    (line : string) (rest : list string) (fin : option error) :
  loadConfig env "config.json" = (config, None) ->
  Getenv env "OPENAI_API_KEY" <> "" ->
  flagInteractive env = true ->
  ToLower line = cmdQuit ->
  snd (main env (S fuel) (Pending (line :: rest) fin)) = Some (Some 0) /\
  remoteCalls (fst (main env (S fuel) (Pending (line :: rest) fin))) = [].
Proof.
  intros Hload Hkey Hi Hq. unfold main. rewrite Hload, Hi.
  apply String.eqb_neq in Hkey. rewrite Hkey.
  unfold runInteractiveMode. cbn [interactiveLoop]. unfold iteration.
  cbn [isMultiline initialSession Scan]. rewrite Hq. split; reflexivity.
Qed.

Lemma interactive_quit_exit_status_witness :
  ToLower ":Q" = cmdQuit /\
  snd (main (demoEnv "ignored" true remoteDown) 1 (Pending [":Q"] None)) = Some (Some 0).
Proof.
  split; [reflexivity |].
  exact (proj1 (interactive_quit_exit_status (demoEnv "ignored" true remoteDown) 0 demoConfig
                  ":Q" [] None eq_refl ltac:(discriminate) eq_refl eq_refl)).
Defined.

(** ** The directory shown in the prompt *)

(** X4.  When the working directory is known, what [getCurrentDirectory]
    shows is that directory, or a tilde and a rest such that the home
    directory followed by the rest is that directory: putting the home
    directory back for the tilde gives the working directory.  When it is
    not known the text is [unknown]. *)
Theorem getCurrentDirectory_home (env : Env) :
  (snd (Getwd env) <> None -> getCurrentDirectory env = "unknown") /\
  (snd (Getwd env) = None ->
   getCurrentDirectory env = fst (Getwd env) \/
   exists rest,
     snd (UserCurrent env) = None /\
     getCurrentDirectory env = ("~" ++ rest)%string /\
     fst (Getwd env) = (fst (UserCurrent env) ++ rest)%string).
Proof.
  unfold getCurrentDirectory.
  destruct (Getwd env) as [currentDir [e |]]; cbn [fst snd].
  - split; [reflexivity | intro H; discriminate H].
  - split; [intro H; contradiction H; reflexivity | intros _].
    destruct (UserCurrent env) as [homeDir [e |]]; cbn [fst snd]; [now left |].
    destruct (HasPrefix currentDir homeDir) eqn:Hpre; [| now left].
    right. exists (TrimPrefix currentDir homeDir).
    split; [reflexivity |]. split; [reflexivity |].
    symmetry. apply TrimPrefix_strips. exact Hpre.
Qed.

(** ** The inner loop, line by line *)

Lemma set_lines_same (st : Session) : set_lines st (lines st) = st.
Proof. destruct st. reflexivity. Qed.

Lemma bind_ret {A B : Type} (a : A) (f : A -> IO B) : bind (ret a) f = f a.
Proof. unfold bind, ret. cbn. destruct (f a). reflexivity. Qed.

(** A line that is no command of multi-line mode joins the pending
    lines, silently. *)
Lemma multilineLine_content (st : Session) (line : string) :
  isCommand line = false ->
  multilineLine st line = ret (Next, set_lines st (lines st ++ [line])).
Proof.
  unfold isCommand, multilineLine. intro H.
  destruct (HasPrefix line ":"); [| reflexivity].
  cbn [andb] in H. apply orb_false_iff in H. destruct H as [H He].
  apply orb_false_iff in H. destruct H as [Hm Hr].
  rewrite Hm, Hr, He. reflexivity.
Qed.

(** Lines that are no commands are taken one after the other; the inner
    loop goes on after them with all of them pending, in their order. *)
Lemma scanLines_content (body rest : list string) (fin : option error) (st : Session) :
  Forall (fun line => isCommand line = false) body ->
  scanLines (body ++ rest) fin st = scanLines rest fin (set_lines st (lines st ++ body)).
Proof.
  intro Hbody. revert st. induction Hbody as [| line body Hline _ IH]; intro st.
  - rewrite app_nil_r, set_lines_same. reflexivity.
  - cbn [app scanLines]. rewrite (multilineLine_content st line Hline), bind_ret.
    cbn [fst snd]. rewrite IH. cbn [lines set_lines]. rewrite <- app_assoc. reflexivity.
Qed.

(** A pass of multi-line mode, once the inner loop is done. *)
Lemma multiline_pass (env : Env) (config : Config) (st : Session) (sc : Scanner)
    (out : list Effect) (sc1 : Scanner) (st1 : Session) :
  isMultiline st = true ->
  multilineLoop sc st = (out, Some (sc1, st1)) ->
  iteration env config st sc =
  (([promptOf env config st; Stdout nl] ++ out, Some tt) ;;;
   match ScanErr sc1 with
   | Some e =>
       fmt.Print ("Error reading input: " ++ e ++ nl)%string ;;; ret (Next, st1, sc1)
   | None =>
       if (0 <? length (lines st1))%nat then
         st2 <- sendTurn env config st1 (Join (lines st1) nl)
                  "Error communicating with AI: " ;;
         ret (Next, st2, sc1)
       else ret (Next, st1, sc1)
   end).
Proof.
  intros Hmode Hloop. unfold iteration, promptOf. rewrite Hmode.
  io_step. rewrite Hloop. reflexivity.
Qed.


Lemma multilineLine_multi (st : Session) (line : string) :
  ToLower line = cmdMulti ->
  multilineLine st line =
  ([Stdout ("Exiting multiline mode." ++ nl)%string; Stdout nl],
   Some (Break, set_lines (set_isMultiline st false) [])).
Proof.
  intro H. unfold multilineLine. rewrite (ToLower_colon line "multi" H), H. reflexivity.
Qed.

(** What a turn leaves: the session with the user message added, and the
    reply after it when there is one. *)
Lemma sendTurn_result (env : Env) (config : Config) (st st' : Session)
    (content pfx : string) :
  snd (sendTurn env config st content pfx) = Some st' ->
  exists reply,
    st' = set_messages st (messages st ++ userMsg content :: reply) /\
    (reply = [] \/ exists a, reply = [assistantMsg a]).
Proof.
  intro H. pose proof (sendTurn_cases env config st content pfx) as Ht.
  cbv zeta in Ht. destruct Ht as [_ Hcase].
  destruct (CreateChatCompletion env _) as [resp [e |]];
    [| destruct (Choices resp) as [| choice others]];
    rewrite Hcase in H; try discriminate H; injection H as <-.
  - exists []. split; [reflexivity | now left].
  - exists [assistantMsg (Content (Message choice))]. rewrite <- app_assoc.
    split; [reflexivity | right; eexists; reflexivity].
Qed.

(** A pass of multi-line mode whose inner loop ended silently, without a
    read error and with lines pending: they are sent as one message. *)
Lemma flush_pass (env : Env) (config : Config) (st : Session) (sc sc1 : Scanner)
    (pending : list string) :
  isMultiline st = true ->
  multilineLoop sc st = ([], Some (sc1, set_lines st pending)) ->
  ScanErr sc1 = None ->
  pending <> [] ->
  let sent := userMsg (Join pending nl) in
  remoteCalls (fst (iteration env config st sc)) =
    [ {| openai.Model := Model config; Messages := messages st ++ [sent] |} ] /\
  forall c st' sc',
    snd (iteration env config st sc) = Some (c, st', sc') ->
    c = Next /\ sc' = sc1 /\ isMultiline st' = true /\
    contextFile st' = contextFile st /\
    exists reply,
      messages st' = messages st ++ sent :: reply /\
      (reply = [] \/ exists a, reply = [assistantMsg a]).
Proof.
  intros Hmode Hloop Herr Hne sent.
  rewrite (multiline_pass env config st sc [] sc1 _ Hmode Hloop), Herr.
  cbn [lines set_lines].
  assert (Hlen : (0 <? length pending)%nat = true)
    by (destruct pending; [contradiction Hne |]; reflexivity).
  rewrite Hlen.
  destruct (turn_pass env config (set_lines st pending) (Join pending nl)
              "Error communicating with AI: "
              ([promptOf env config st; Stdout nl] ++ []) sc1 eq_refl) as [Hcalls Hres].
  split; [exact Hcalls |].
  intros c st' sc' Hs. destruct (Hres c st' sc' Hs) as (-> & -> & Ht).
  destruct (sendTurn_result env config _ st' _ _ Ht) as (reply & -> & Hreply).
  cbn [isMultiline contextFile messages set_messages set_lines].
  repeat split; try assumption. exists reply. split; [reflexivity | exact Hreply].
Qed.

(** ** Multi-line input *)



(** X6.  When the input of multi-line mode ends (no read error) with
    lines pending, they are sent just as after [:end]: the end of the
    input flushes the buffer. *)
Theorem multiline_end_of_input_flushes (env : Env) (config : Config) (st : Session)
    (body : list string) :
  isMultiline st = true ->
  Forall (fun line => isCommand line = false) body ->
  lines st ++ body <> [] ->
  let pass := iteration env config st (Pending body None) in
  let sent := userMsg (Join (lines st ++ body) nl) in
  remoteCalls (fst pass) =
    [ {| openai.Model := Model config; Messages := messages st ++ [sent] |} ] /\
  forall c st' sc',
    snd pass = Some (c, st', sc') ->
    c = Next /\ sc' = Stopped None /\ isMultiline st' = true /\
    contextFile st' = contextFile st /\
    exists reply,
      messages st' = messages st ++ sent :: reply /\
      (reply = [] \/ exists a, reply = [assistantMsg a]).
Proof.
  intros Hmode Hbody Hne.
  apply flush_pass; try assumption; [| reflexivity].
  cbn [multilineLoop]. rewrite <- (app_nil_r body) at 1.
  rewrite (scanLines_content body [] None st Hbody). reflexivity.
Qed.

Lemma multiline_end_of_input_flushes_witness :
  Forall (fun line => isCommand line = false) ["half a thought"] /\
  remoteCalls (fst (iteration (demoEnv "" true remoteOk) demoConfig (multilineSession [])
                      (Pending ["half a thought"] None))) =
  [ {| openai.Model := "gpt-x";
       Messages := [systemMsg "be terse"; userMsg "half a thought"] |} ].
Proof.
  assert (Hbody : Forall (fun line => isCommand line = false) ["half a thought"])
    by (repeat constructor).
  split; [exact Hbody |].
  exact (proj1 (multiline_end_of_input_flushes (demoEnv "" true remoteOk) demoConfig
                  (multilineSession []) ["half a thought"]
                  eq_refl Hbody ltac:(discriminate))).
Defined.



(** A pass of multi-line mode that meets [:multi] after lines that are no
    commands. *)
Lemma multi_pass_leaves (env : Env) (config : Config) (st : Session)
    (body : list string) (multiLine : string) (rest : list string) (fin : option error) :
  isMultiline st = true ->
  Forall (fun line => isCommand line = false) body ->
  ToLower multiLine = cmdMulti ->
  iteration env config st (Pending (body ++ multiLine :: rest) fin) =
  ([promptOf env config st; Stdout nl;
    Stdout ("Exiting multiline mode." ++ nl)%string; Stdout nl],
   Some (Next,
         {| messages := messages st; contextFile := contextFile st;
            isMultiline := false; lines := [] |},
         Pending rest fin)).
Proof.
  intros Hmode Hbody Hmulti.
  assert (Hloop : multilineLoop (Pending (body ++ multiLine :: rest) fin) st =
                  ([Stdout ("Exiting multiline mode." ++ nl)%string; Stdout nl],
                   Some (Pending rest fin,
                         {| messages := messages st; contextFile := contextFile st;
                            isMultiline := false; lines := [] |}))).
  { cbn [multilineLoop]. rewrite (scanLines_content body _ fin st Hbody).
    cbn [scanLines]. rewrite (multilineLine_multi _ multiLine Hmulti). reflexivity. }
  rewrite (multiline_pass env config st _ _ _ _ Hmode Hloop). reflexivity.
Qed.

(** X8.  In multi-line mode a line [:multi] (in any case) after lines
    that are no commands throws all pending lines away: nothing is sent,
    [messages] and [contextFile] stay, and the session is back in
    single-line mode with no line pending. *)
Theorem multi_leaves_multiline (env : Env) (config : Config) (st : Session)
    (body : list string) (multiLine : string) (rest : list string) (fin : option error) :
  isMultiline st = true ->
  Forall (fun line => isCommand line = false) body ->
  ToLower multiLine = cmdMulti ->
  let pass := iteration env config st (Pending (body ++ multiLine :: rest) fin) in
  remoteCalls (fst pass) = [] /\
  snd pass =
  Some (Next,
        {| messages := messages st; contextFile := contextFile st;
           isMultiline := false; lines := [] |},
        Pending rest fin).
Proof.
  intros Hmode Hbody Hmulti pass. subst pass.
  rewrite (multi_pass_leaves env config st body multiLine rest fin Hmode Hbody Hmulti).
  split; reflexivity.
Qed.

Lemma multi_leaves_multiline_witness :
  Forall (fun line => isCommand line = false) ["draft"] /\
  snd (iteration (demoEnv "" true remoteOk) demoConfig (multilineSession ["old"])
         (Pending ["draft"; ":MULTI"; "hi"] None)) =
  Some (Next, initialSession demoConfig, Pending ["hi"] None).
Proof.
  assert (Hbody : Forall (fun line => isCommand line = false) ["draft"])
    by (repeat constructor).
  split; [exact Hbody |].
  exact (proj2 (multi_leaves_multiline (demoEnv "" true remoteOk) demoConfig
                  (multilineSession ["old"]) ["draft"] ":MULTI" ["hi"] None
                  eq_refl Hbody eq_refl)).
Defined.

(** X9.  When reading fails in multi-line mode after lines that are no
    commands, the pass reports the error and sends nothing; the lines
    read before the failure stay pending, behind the ones that were
    pending already, and the pass ends at [continue], in multi-line
    mode. *)
Theorem multiline_read_error (env : Env) (config : Config) (st : Session)
    (body : list string) (e : error) :
  isMultiline st = true ->
  Forall (fun line => isCommand line = false) body ->
  let pass := iteration env config st (Pending body (Some e)) in
  fst pass =
    [promptOf env config st; Stdout nl;
     Stdout ("Error reading input: " ++ e ++ nl)%string] /\
  exists sc', snd pass = Some (Next, set_lines st (lines st ++ body), sc').
Proof.
  intros Hmode Hbody pass. subst pass.
  assert (Hloop : multilineLoop (Pending body (Some e)) st =
                  ([], Some (Stopped (Some e), set_lines st (lines st ++ body)))).
  { cbn [multilineLoop]. rewrite <- (app_nil_r body) at 1.
    rewrite (scanLines_content body [] (Some e) st Hbody). reflexivity. }
  rewrite (multiline_pass env config st _ _ _ _ Hmode Hloop).
  split; [reflexivity |]. eexists. reflexivity.
Qed.

Lemma multiline_read_error_witness :
  Forall (fun line => isCommand line = false) ["a"] /\
  fst (iteration (demoEnv "" true remoteOk) demoConfig (multilineSession [])
         (Pending ["a"] (Some "input/output error"))) =
  [Stdout "(~/p) [Multiline] You: "; Stdout nl;
   Stdout ("Error reading input: input/output error" ++ nl)%string].
Proof.
  assert (Hbody : Forall (fun line => isCommand line = false) ["a"])
    by (repeat constructor).
  split; [exact Hbody |].
  exact (proj1 (multiline_read_error (demoEnv "" true remoteOk) demoConfig
                  (multilineSession []) ["a"] "input/output error" eq_refl Hbody)).
Defined.

Lemma multilineLine_remove (st : Session) (line : string) :
  ToLower line = cmdRemove ->
  multilineLine st line =
  if (0 <? length (lines st))%nat
  then ([Stdout ("Last line removed." ++ nl)%string; Stdout nl],
        Some (Next, set_lines st (firstn (length (lines st) - 1) (lines st))))
  else ([Stdout ("No lines to remove." ++ nl)%string; Stdout nl], Some (Next, st)).
Proof.
  intro H. unfold multilineLine. rewrite (ToLower_colon line "remove" H), H.
  cbn [String.eqb]. destruct (0 <? length (lines st))%nat; reflexivity.
Qed.

(** X10.  In multi-line mode a line followed by [:remove] leaves the
    pending lines as they were before the line: the inner loop goes on
    exactly as it would have without the two, but for the notice. *)
Theorem append_then_remove (st : Session) (line removeLine : string)
    (rest : list string) (fin : option error) :
  isCommand line = false ->
  ToLower removeLine = cmdRemove ->
  scanLines (line :: removeLine :: rest) fin st =
  ([Stdout ("Last line removed." ++ nl)%string; Stdout nl] ++ fst (scanLines rest fin st),
   snd (scanLines rest fin st)).
Proof.
  intros Hline Hremove. cbn [scanLines].
  rewrite (multilineLine_content st line Hline), bind_ret. cbn [fst snd].
  rewrite (multilineLine_remove _ removeLine Hremove). cbn [lines set_lines].
  assert (Hlen : (0 <? length (lines st ++ [line]))%nat = true).
  { rewrite length_app. cbn [length]. apply Nat.ltb_lt. lia. }
  rewrite Hlen, drop_last.
  assert (Hst : set_lines (set_lines st (lines st ++ [line])) (lines st) = st)
    by (destruct st; reflexivity).
  rewrite Hst. reflexivity.
Qed.

Lemma append_then_remove_witness :
  ToLower ":REMOVE" = cmdRemove /\
  scanLines ["typo"; ":REMOVE"; "fixed"; ":end"] None (multilineSession ["a"]) =
  ([Stdout ("Last line removed." ++ nl)%string; Stdout nl],
   Some (Pending [] None, multilineSession ["a"; "fixed"])).
Proof.
  split; [reflexivity |].
  exact (append_then_remove (multilineSession ["a"]) "typo" ":REMOVE" ["fixed"; ":end"] None
           eq_refl eq_refl).
Defined.

(** ** Leaving the loop *)

(** Once the scanner has met the end of the input, a pass panics or ends
    at the closing brace with the scanner as it is. *)
Lemma stopped_pass (env : Env) (config : Config) (st : Session) (e : option error) :
  snd (iteration env config st (Stopped e)) = None \/
  exists st', snd (iteration env config st (Stopped e)) = Some (Next, st', Stopped e).
Proof.
  unfold iteration. destruct (isMultiline st).
  - io_step. cbn [multilineLoop]. io_step. cbn [ScanErr].
    destruct e as [e |]; [right; eexists; reflexivity |].
    destruct (0 <? length (lines st))%nat; [| right; eexists; reflexivity].
    io_step. destruct (sendTurn env config st _ _) as [o [s |]]; io_step;
      [right; eexists; reflexivity | now left].
  - cbn [Scan]. cbn [ToLower String.eqb HasPrefix cmdQuit cmdMulti cmdFile].
    io_step. destruct (sendTurn env config st _ _) as [o [s |]]; io_step;
      [right; eexists; reflexivity | now left].
Qed.

(** X11.  The end of the input does not end the loop.  With the scanner
    at the end of the input (no read error) the loop never returns,
    however many passes it is given; and each pass of single-line mode
    then sends a request whose user message is the empty line (after the
    context tag, if a context file is set). *)
Theorem end_of_input_never_quits (env : Env) (config : Config) (fuel : nat)
    (st : Session) :
  (forall st', snd (interactiveLoop env fuel config st (Stopped None)) <> Some (Some st')) /\
  (isMultiline st = false ->
   remoteCalls (fst (iteration env config st (Stopped None))) =
   [ {| openai.Model := Model config;
        Messages := messages st ++ [userMsg (plainContent st "")] |} ]).
Proof.
  split.
  - revert st. induction fuel as [| fuel IH]; intros st st' H; [discriminate H |].
    cbn [interactiveLoop] in H. unfold bind in H.
    destruct (stopped_pass env config st None) as [Hp | [st1 Hp]];
      rewrite Hp in H; [discriminate H |].
    cbn [snd] in H. exact (IH st1 st' H).
  - intro Hmode.
    assert (Hpass : iteration env config st (Stopped None) =
              ([promptOf env config st], Some tt) ;;;
              (st1 <- sendTurn env config st (plainContent st "") "Error: " ;;
               ret (Next, st1, Stopped None))).
    { unfold iteration, promptOf, plainContent. rewrite Hmode. reflexivity. }
    rewrite Hpass.
    exact (proj1 (turn_pass env config st (plainContent st "") "Error: "
                    [promptOf env config st] (Stopped None) eq_refl)).
Qed.

(** X12.  A pass leaves the function only on [:q]: if it returns, the
    session was in single-line mode, the line read was [:q] in some case,
    the session is as it was and no request was sent. *)
Theorem returns_only_on_quit (env : Env) (config : Config) (st : Session) (sc : Scanner)
    (st' : Session) (sc' : Scanner) :
  snd (iteration env config st sc) = Some (Return, st', sc') ->
  isMultiline st = false /\
  ToLower (snd (fst (Scan sc))) = cmdQuit /\
  st' = st /\
  remoteCalls (fst (iteration env config st sc)) = [].
Proof.
  intro H. destruct (isMultiline st) eqn:Hmode.
  - exfalso.
    destruct (multilineLoop_quiet sc st) as (out & sc1 & st1 & Hl & _).
    rewrite (multiline_pass env config st sc out sc1 st1 Hmode Hl) in H.
    destruct (ScanErr sc1) as [e |]; [discriminate H |].
    destruct (0 <? length (lines st1))%nat; [| discriminate H].
    io_step in H. destruct (sendTurn env config st1 _ _) as [o [s |]];
      io_step in H; discriminate H.
  - unfold iteration in *. rewrite Hmode in *.
    destruct (Scan sc) as [[b userInput] sc1]. cbn [fst snd].
    destruct (ToLower userInput =? cmdQuit)%string eqn:Hq.
    + apply String.eqb_eq in Hq. injection H as <- _. repeat split. exact Hq.
    + exfalso. destruct (ToLower userInput =? cmdMulti)%string; [discriminate H |].
      destruct (HasPrefix userInput cmdFile).
      * unfold readFile in H.
        destruct (ReadFile env _) as [content [e |]]; discriminate H.
      * io_step in H. destruct (sendTurn env config st _ _) as [o [s |]];
          io_step in H; discriminate H.
Qed.

Lemma returns_only_on_quit_witness :
  snd (iteration (demoEnv "" true remoteOk) demoConfig notesSession (Pending [":q"] None)) =
    Some (Return, notesSession, Pending [] None) /\
  ToLower (snd (fst (Scan (Pending [":q"] None)))) = cmdQuit.
Proof.
  assert (H : snd (iteration (demoEnv "" true remoteOk) demoConfig notesSession
                     (Pending [":q"] None)) = Some (Return, notesSession, Pending [] None))
    by reflexivity.
  split; [exact H |].
  exact (proj1 (proj2 (returns_only_on_quit (demoEnv "" true remoteOk) demoConfig notesSession
                         (Pending [":q"] None) notesSession (Pending [] None) H))).
Defined.

(** X13.  Entering multi-line mode and leaving it at once with a second
    [:multi] brings the session back as it was, with no line pending:
    neither pass sends a request or adds a message. *)
Theorem enter_then_leave (env : Env) (config : Config) (st : Session)
    (enterLine leaveLine : string) (rest : list string) (fin : option error) :
  isMultiline st = false ->
  ToLower enterLine = cmdMulti ->
  ToLower leaveLine = cmdMulti ->
  let entered := set_lines (set_isMultiline st true) [] in
  let first := iteration env config st (Pending (enterLine :: leaveLine :: rest) fin) in
  let second := iteration env config entered (Pending (leaveLine :: rest) fin) in
  snd first = Some (Next, entered, Pending (leaveLine :: rest) fin) /\
  snd second = Some (Next, set_lines st [], Pending rest fin) /\
  remoteCalls (fst first ++ fst second) = [].
Proof.
  intros Hmode Henter Hleave entered first second.
  assert (Hfirst : first =
            ([promptOf env config st;
              Stdout ("Multiline mode. Type " ++ cmdEnd ++ " to finish input, "
                      ++ cmdRemove ++ " to delete the most recent line." ++ nl)%string;
              Stdout nl],
             Some (Next, entered, Pending (leaveLine :: rest) fin))).
  { subst first. unfold iteration, promptOf. rewrite Hmode. cbn [Scan].
    rewrite Henter. reflexivity. }
  assert (Hsecond : second =
            ([promptOf env config entered; Stdout nl;
              Stdout ("Exiting multiline mode." ++ nl)%string; Stdout nl],
             Some (Next, set_lines st [], Pending rest fin))).
  { subst second.
    pose proof (multi_pass_leaves env config entered [] leaveLine rest fin
                  eq_refl (Forall_nil _) Hleave) as Hp.
    cbn [app] in Hp. rewrite Hp.
    subst entered. unfold set_lines, set_isMultiline. cbn. rewrite Hmode. reflexivity. }
  rewrite Hfirst, Hsecond. repeat split.
Qed.

Lemma enter_then_leave_witness :
  ToLower ":Multi" = cmdMulti /\
  snd (iteration (demoEnv "" true remoteOk) demoConfig
         (set_lines (set_isMultiline notesSession true) [])
         (Pending [":multi"; "hi"] None)) =
  Some (Next, notesSession, Pending ["hi"] None).
Proof.
  split; [reflexivity |].
  exact (proj1 (proj2 (enter_then_leave (demoEnv "" true remoteOk) demoConfig notesSession
                         ":Multi" ":multi" ["hi"] None eq_refl eq_refl eq_refl))).
Defined.

(** ** What holds of every session the loop reaches *)

Lemma reachable_system_first (config : Config) (st : Session) :
  reachable config st ->
  exists rest, messages st = systemMsg (SystemPrompt config) :: rest.
Proof.
  induction 1 as [| env st sc c st' sc' _ [rest IH] Hpass].
  - exists []. reflexivity.
  - destruct (iteration_appends env config st sc c st' sc' Hpass) as [added ->].
    rewrite IH. exists (rest ++ added). reflexivity.
Qed.

(** X14.  A pass sends at most one request.  A request sent from a
    session the loop has reached names the configured model and carries
    the whole transcript, the system message first, followed by one new
    user message. *)
Theorem request_carries_transcript (config : Config) (st : Session) (env : Env)
    (sc : Scanner) (req : ChatCompletionRequest) :
  reachable config st ->
  In req (remoteCalls (fst (iteration env config st sc))) ->
  remoteCalls (fst (iteration env config st sc)) = [req] /\
  openai.Model req = Model config /\
  exists earlier content,
    messages st = systemMsg (SystemPrompt config) :: earlier /\
    Messages req = systemMsg (SystemPrompt config) :: earlier ++ [userMsg content].
Proof.
  intros Hreach Hin.
  destruct (reachable_system_first config st Hreach) as [earlier Hms].
  destruct (iteration_shape env config st sc)
    as [[Hq _] | (st0 & content & pfx & sc1 & Hm & Hc & _)].
  - rewrite Hq in Hin. destruct Hin.
  - pose proof (sendTurn_cases env config st0 content pfx) as Ht.
    cbv zeta in Ht. destruct Ht as [Hreq _].
    rewrite Hc, Hreq in Hin |- *. destruct Hin as [<- | []].
    split; [reflexivity |]. split; [reflexivity |].
    exists earlier, content. split; [exact Hms |].
    cbn [Messages]. rewrite Hm, Hms. reflexivity.
Qed.

Lemma request_carries_transcript_witness :
  reachable demoConfig greetedSession /\
  exists earlier content,
    messages greetedSession = systemMsg "be terse" :: earlier /\
    [systemMsg "be terse"; userMsg "hi"; assistantMsg "ok"; userMsg "more"] =
    systemMsg "be terse" :: earlier ++ [userMsg content].
Proof.
  assert (Hreach : reachable demoConfig greetedSession).
  { apply (reach_pass demoConfig (demoEnv "" true remoteOk) (initialSession demoConfig)
             (Pending ["hi"] None) Next greetedSession (Pending [] None)).
    - apply reach_init.
    - reflexivity. }
  split; [exact Hreach |].
  exact (proj2 (proj2 (request_carries_transcript demoConfig greetedSession
                         (demoEnv "" true remoteDown) (Pending ["more"] None)
                         {| openai.Model := "gpt-x";
                            Messages := [systemMsg "be terse"; userMsg "hi";
                                         assistantMsg "ok"; userMsg "more"] |}
                         Hreach (or_introl eq_refl)))).
Defined.

(** A line of multi-line mode keeps the mode, or it is [:multi], which
    leaves the mode with no line pending. *)
Lemma multilineLine_mode (st : Session) (line : string) (out : list Effect)
    (c : LoopCtl) (st' : Session) :
  multilineLine st line = (out, Some (c, st')) ->
  (isMultiline st' = isMultiline st /\ (c = Break -> st' = st)) \/
  (c = Break /\ isMultiline st' = false /\ lines st' = []).
Proof.
  unfold multilineLine. intro H.
  destruct (HasPrefix line ":");
    [ destruct (ToLower line =? cmdMulti)%string;
      [| destruct (ToLower line =? cmdRemove)%string;
         [ destruct (0 <? length (lines st))%nat
         | destruct (ToLower line =? cmdEnd)%string ] ] |];
    injection H as _ <- <-;
    first [ right; repeat split; reflexivity
          | left; split; [reflexivity | intro Hc; first [discriminate Hc | reflexivity]] ].
Qed.

Lemma scanLines_mode (toks : list string) (fin : option error) (st : Session)
    (out : list Effect) (sc1 : Scanner) (st1 : Session) :
  scanLines toks fin st = (out, Some (sc1, st1)) ->
  isMultiline st1 = isMultiline st \/ (isMultiline st1 = false /\ lines st1 = []).
Proof.
  revert st out. induction toks as [| line rest IH]; intros st out H.
  - injection H as _ _ <-. now left.
  - destruct (multilineLine_quiet st line) as (o & c & st' & Hl & _ & Hc & _).
    cbn [scanLines] in H. rewrite (bind_returns _ _ _ _ Hl) in H. cbn [fst snd] in H.
    pose proof (multilineLine_mode st line o c st' Hl) as Hmode.
    destruct c; [| | contradiction Hc; reflexivity].
    + destruct (scanLines rest fin st') as [o2 r2] eqn:H2.
      cbn [fst snd] in H. injection H as _ ->.
      destruct (IH st' o2 H2) as [Hk | Hk]; [| now right].
      destruct Hmode as [[Hm _] | (Hb & _)]; [left; congruence | discriminate Hb].
    + injection H as _ _ <-.
      destruct Hmode as [[Hm _] | (_ & Hf & Hn)]; [now left | now right].
Qed.

(** A pass keeps: in single-line mode no line is pending. *)
Lemma pass_keeps_buffer_empty (env : Env) (config : Config) (st : Session) (sc : Scanner)
    (c : LoopCtl) (st' : Session) (sc' : Scanner) :
  (isMultiline st = false -> lines st = []) ->
  snd (iteration env config st sc) = Some (c, st', sc') ->
  isMultiline st' = false -> lines st' = [].
Proof.
  intros Hinv H. destruct (isMultiline st) eqn:Hmode.
  - destruct (multilineLoop_quiet sc st) as (out & sc1 & st1 & Hl & _).
    assert (Hst1 : isMultiline st1 = false -> lines st1 = []).
    { destruct sc as [toks fin | e]; cbn [multilineLoop] in Hl.
      - destruct (scanLines_mode toks fin st out sc1 st1 Hl) as [Hk | [_ Hk]];
          [rewrite Hk, Hmode; discriminate | intros _; exact Hk].
      - injection Hl as _ _ <-. rewrite Hmode. discriminate. }
    rewrite (multiline_pass env config st sc out sc1 st1 Hmode Hl) in H.
    destruct (ScanErr sc1) as [e |]; [injection H as _ <- _; exact Hst1 |].
    destruct (0 <? length (lines st1))%nat; [| injection H as _ <- _; exact Hst1].
    io_step in H. destruct (sendTurn env config st1 _ _) as [o [s |]] eqn:Ht;
      io_step in H; [| discriminate H].
    injection H as _ <- _.
    destruct (sendTurn_only_messages env config st1 s _ _ (f_equal snd Ht)) as [ms ->].
    exact Hst1.
  - unfold iteration in H. rewrite Hmode in H.
    destruct (Scan sc) as [[b userInput] sc1].
    destruct (ToLower userInput =? cmdQuit)%string;
      [injection H as _ <- _; intros _; now apply Hinv |].
    destruct (ToLower userInput =? cmdMulti)%string;
      [injection H as _ <- _; intro Hk; discriminate Hk |].
    destruct (HasPrefix userInput cmdFile).
    + unfold readFile in H.
      destruct (ReadFile env _) as [content [e |]]; injection H as _ <- _;
        intros _; now apply Hinv.
    + io_step in H. destruct (sendTurn env config st _ _) as [o [s |]] eqn:Ht;
        io_step in H; [| discriminate H].
      injection H as _ <- _.
      destruct (sendTurn_only_messages env config st s _ _ (f_equal snd Ht)) as [ms ->].
      intros _. now apply Hinv.
Qed.

(** X15.  In every session the loop reaches, lines are pending in
    multi-line mode only: in single-line mode the buffer is empty. *)
Theorem single_line_has_no_pending (config : Config) (st : Session) :
  reachable config st ->
  isMultiline st = false ->
  lines st = [].
Proof.
  induction 1 as [| env st sc c st' sc' _ IH Hpass].
  - reflexivity.
  - exact (pass_keeps_buffer_empty env config st sc c st' sc' IH Hpass).
Qed.

Lemma single_line_has_no_pending_witness :
  reachable demoConfig greetedSession /\ lines greetedSession = [].
Proof.
  assert (Hreach : reachable demoConfig greetedSession).
  { apply (reach_pass demoConfig (demoEnv "" true remoteOk) (initialSession demoConfig)
             (Pending ["hi"] None) Next greetedSession (Pending [] None)).
    - apply reach_init.
    - reflexivity. }
  split; [exact Hreach |].
  exact (single_line_has_no_pending demoConfig greetedSession Hreach eq_refl).
Defined.

(** What a pass adds to [messages]: nothing, a user message, or a user
    message and the reply to it. *)
Lemma iteration_added (env : Env) (config : Config) (st : Session) (sc : Scanner)
    (c : LoopCtl) (st' : Session) (sc' : Scanner) :
  snd (iteration env config st sc) = Some (c, st', sc') ->
  messages st' = messages st \/
  (exists u, messages st' = messages st ++ [userMsg u]) \/
  (exists u a, messages st' = messages st ++ [userMsg u; assistantMsg a]).
Proof.
  intro Hit.
  destruct (iteration_shape env config st sc)
    as [[_ (c0 & s0 & sc0 & Hs & Hm)] | (st0 & content & pfx & sc1 & Hm & _ & Hs)].
  - rewrite Hs in Hit. injection Hit as _ <- _.
    destruct Hm as [Hm | Hm]; [now left | right; now left].
  - destruct (snd (sendTurn env config st0 content pfx)) as [s |] eqn:Ht;
      [| rewrite Hit in Hs; discriminate Hs].
    rewrite Hit in Hs. injection Hs as _ -> _.
    destruct (sendTurn_result env config st0 s content pfx Ht) as (reply & -> & Hreply).
    cbn [messages set_messages]. rewrite Hm. right.
    destruct Hreply as [-> | [a ->]]; [left | right]; eexists; try eexists; reflexivity.
Qed.

Lemma dialogue_user (S : string) (ms : list ChatCompletionMessage) (u : string) :
  dialogue S ms -> dialogue S (ms ++ [userMsg u]).
Proof.
  intros [Hhead Hrest].
  assert (Hlen : 0 < length ms) by (apply nth_error_Some; rewrite Hhead; discriminate).
  split.
  - rewrite nth_error_app1 by exact Hlen. exact Hhead.
  - intros i m Hm. destruct (Nat.lt_ge_cases (Datatypes.S i) (length ms)) as [Hlt | Hge].
    + rewrite nth_error_app1 in Hm by exact Hlt.
      rewrite nth_error_app1 by lia. exact (Hrest i m Hm).
    + rewrite nth_error_app2 in Hm by exact Hge.
      destruct (Datatypes.S i - length ms) as [| [| k]]; cbn in Hm;
        try discriminate Hm. injection Hm as <-. now left.
Qed.

Lemma dialogue_user_assistant (S : string) (ms : list ChatCompletionMessage) (u a : string) :
  dialogue S ms -> dialogue S (ms ++ [userMsg u; assistantMsg a]).
Proof.
  intros [Hhead Hrest].
  assert (Hlen : 0 < length ms) by (apply nth_error_Some; rewrite Hhead; discriminate).
  split.
  - rewrite nth_error_app1 by exact Hlen. exact Hhead.
  - intros i m Hm. destruct (Nat.lt_ge_cases (Datatypes.S i) (length ms)) as [Hlt | Hge].
    + rewrite nth_error_app1 in Hm by exact Hlt.
      rewrite nth_error_app1 by lia. exact (Hrest i m Hm).
    + rewrite nth_error_app2 in Hm by exact Hge.
      destruct (Datatypes.S i - length ms) as [| [| k]] eqn:Hk; cbn in Hm.
      * injection Hm as <-. now left.
      * injection Hm as <-. right. split; [reflexivity |].
        exists (userMsg u). split; [| reflexivity].
        rewrite nth_error_app2 by lia.
        replace (i - length ms) with 0 by lia. reflexivity.
      * destruct k; discriminate Hm.
Qed.

(** X16.  In every session the loop reaches, the transcript has the
    shape of a dialogue: the system message of the configured prompt is
    first and is the only system message, and every assistant message
    stands directly after a user message. *)
Theorem transcript_is_dialogue (config : Config) (st : Session) :
  reachable config st ->
  dialogue (SystemPrompt config) (messages st).
Proof.
  induction 1 as [| env st sc c st' sc' _ IH Hpass].
  - split; [reflexivity |]. intros i m Hm. destruct i; discriminate Hm.
  - destruct (iteration_added env config st sc c st' sc' Hpass)
      as [-> | [[u ->] | (u & a & ->)]].
    + exact IH.
    + apply dialogue_user. exact IH.
    + apply dialogue_user_assistant. exact IH.
Qed.

Lemma transcript_is_dialogue_witness :
  reachable demoConfig greetedSession /\
  dialogue "be terse" [systemMsg "be terse"; userMsg "hi"; assistantMsg "ok"].
Proof.
  assert (Hreach : reachable demoConfig greetedSession).
  { apply (reach_pass demoConfig (demoEnv "" true remoteOk) (initialSession demoConfig)
             (Pending ["hi"] None) Next greetedSession (Pending [] None)).
    - apply reach_init.
    - reflexivity. }
  split; [exact Hreach |].
  exact (transcript_is_dialogue demoConfig greetedSession Hreach).
Defined.

(** ** Conversations *)

(** The pass of single-line mode on a plain line is a turn. *)
Lemma plain_pass (env : Env) (config : Config) (st : Session)
    (L : string) (rest : list string) (fin : option error) :
  isMultiline st = false ->
  isPlain L = true ->
  iteration env config st (Pending (L :: rest) fin) =
  (([promptOf env config st], Some tt) ;;;
   (st1 <- sendTurn env config st (plainContent st L) "Error: " ;;
    ret (Next, st1, Pending rest fin))).
Proof.
  intros Hmode Hplain. unfold isPlain in Hplain.
  apply andb_true_iff in Hplain. destruct Hplain as [Hplain Hf].
  apply andb_true_iff in Hplain. destruct Hplain as [Hq Hm].
  apply negb_true_iff in Hq, Hm, Hf.
  unfold iteration, promptOf, plainContent. rewrite Hmode. cbn [Scan].
  rewrite Hq, Hm, Hf. reflexivity.
Qed.

Lemma interactiveLoop_next (env : Env) (config : Config) (fuel : nat)
    (st st1 : Session) (sc sc1 : Scanner) :
  snd (iteration env config st sc) = Some (Next, st1, sc1) ->
  interactiveLoop env (S fuel) config st sc =
  (fst (iteration env config st sc) ++ fst (interactiveLoop env fuel config st1 sc1),
   snd (interactiveLoop env fuel config st1 sc1)).
Proof. intro H. cbn [interactiveLoop]. unfold bind. rewrite H. reflexivity. Qed.

(** X17.  With a remote model that answers every request with at least
    one choice, plain lines typed in single-line mode and then [:q] make
    the loop return after one request per line.  Each request carries
    all messages so far and the line (after the context tag, if a context
    file is set) as a new user message, and the content of the first
    choice of its answer is added after that message as the reply.
    Whether the replies could be rendered plays no part. *)
Theorem plain_conversation (env : Env) (config : Config) :
  (forall req,
      snd (CreateChatCompletion env req) = None /\
      Choices (fst (CreateChatCompletion env req)) <> []) ->
  forall (asked : list string) (quitLine : string) (rest : list string)
         (fin : option error) (st : Session),
    isMultiline st = false ->
    Forall (fun L => isPlain L = true) asked ->
    ToLower quitLine = cmdQuit ->
    let run := interactiveLoop env (S (length asked)) config st
                 (Pending (asked ++ quitLine :: rest) fin) in
    let contents := map (plainContent st) asked in
    snd run =
      Some (Some (set_messages st (conversation env config (messages st) contents))) /\
    remoteCalls (fst run) = requests env config (messages st) contents.
Proof.
  intros Hremote asked quitLine rest fin st Hmode Hasked Hquit.
  revert st Hmode.
  induction Hasked as [| L asked HL _ IH]; intros st Hmode run contents;
    subst run contents.
  - cbn [length app interactiveLoop map conversation requests].
    unfold iteration. rewrite Hmode. cbn [Scan].
    rewrite Hquit. cbn. split; [| reflexivity]. destruct st; reflexivity.
  - set (req := {| openai.Model := Model config;
                   Messages := messages st ++ [userMsg (plainContent st L)] |}).
    pose proof (sendTurn_cases env config st (plainContent st L) "Error: ") as Ht.
    cbv zeta in Ht. fold req in Ht. destruct Ht as [Hreq Hcase].
    destruct (Hremote req) as [Hok Hchoices].
    assert (Hfirst : firstReply env config (messages st ++ [userMsg (plainContent st L)]) =
                     match Choices (fst (CreateChatCompletion env req)) with
                     | choice :: _ => Content (Message choice)
                     | [] => ""
                     end) by reflexivity.
    destruct (CreateChatCompletion env req) as [resp [e |]]; [discriminate Hok |].
    cbn [fst] in Hchoices, Hfirst.
    destruct (Choices resp) as [| choice others]; [contradiction Hchoices; reflexivity |].
    set (st1 := set_messages st
                  ((messages st ++ [userMsg (plainContent st L)]) ++
                   [assistantMsg (Content (Message choice))])) in *.
    destruct (turn_pass env config st (plainContent st L) "Error: "
                [promptOf env config st] (Pending (asked ++ quitLine :: rest) fin) eq_refl)
      as [Hcalls _].
    assert (Hpass : snd (iteration env config st (Pending (L :: asked ++ quitLine :: rest) fin))
                    = Some (Next, st1, Pending (asked ++ quitLine :: rest) fin)).
    { rewrite (plain_pass env config st L _ fin Hmode HL).
      destruct (sendTurn env config st (plainContent st L) "Error: ") as [o r].
      cbn [snd] in Hcase. subst r. reflexivity. }
    rewrite <- (plain_pass env config st L _ fin Hmode HL) in Hcalls.
    destruct (IH st1 Hmode) as [Hrun Hn].
    cbn [length app map conversation requests].
    rewrite (interactiveLoop_next env config _ st st1 _ _ Hpass).
    cbn [fst snd]. rewrite Hfirst. fold req. split.
    + rewrite Hrun. reflexivity.
    + rewrite remoteCalls_app, Hcalls, Hn. reflexivity.
Qed.

Lemma plain_conversation_witness :
  (forall req,
      snd (CreateChatCompletion (demoEnv "" true remoteOk) req) = None /\
      Choices (fst (CreateChatCompletion (demoEnv "" true remoteOk) req)) <> []) /\
  snd (interactiveLoop (demoEnv "" true remoteOk) 3 demoConfig notesSession
         (Pending ["what next?"; ":FILE x"; ":Q"] None)) =
  Some (Some (set_messages notesSession
                (messages notesSession ++
                 [userMsg "(Context: notes.txt) what next?"; assistantMsg "ok";
                  userMsg "(Context: notes.txt) :FILE x"; assistantMsg "ok"]))).
Proof.
  assert (Hremote : forall req,
             snd (CreateChatCompletion (demoEnv "" true remoteOk) req) = None /\
             Choices (fst (CreateChatCompletion (demoEnv "" true remoteOk) req)) <> [])
    by (intro req; split; [reflexivity | discriminate]).
  split; [exact Hremote |].
  exact (proj1 (plain_conversation (demoEnv "" true remoteOk) demoConfig Hremote
                  ["what next?"; ":FILE x"] ":Q" [] None notesSession
                  eq_refl ltac:(repeat constructor) eq_refl)).
Defined.

(** ** Reading files *)

Lemma readFileCalls_app (e1 e2 : list Effect) :
  readFileCalls (e1 ++ e2) = readFileCalls e1 ++ readFileCalls e2.
Proof.
  induction e1 as [| e e1 IH]; cbn [app readFileCalls]; [reflexivity |].
  destruct e; cbn [app]; now rewrite IH.
Qed.

Lemma printFormattedResponse_reads (env : Env) (response style aiName model : string) :
  readFileCalls (fst (printFormattedResponse env response style aiName model)) = [].
Proof.
  unfold printFormattedResponse.
  destruct (NewTermRenderer env _) as [e |]; [reflexivity |].
  destruct (glamourRender env _ response) as [out [e |]]; reflexivity.
Qed.

Lemma sendTurn_reads (env : Env) (config : Config) (st : Session) (content pfx : string) :
  readFileCalls (fst (sendTurn env config st content pfx)) = [].
Proof.
  unfold sendTurn, callOpenAI.
  destruct (CreateChatCompletion env _) as [resp [e |]]; [reflexivity |].
  destruct (Choices resp) as [| choice others]; [reflexivity |].
  pose proof (printFormattedResponse_reads env (Content (Message choice))
                (Style config) (AIName config) (Model config)) as Hr.
  destruct (printFormattedResponse_quiet env (Content (Message choice))
              (Style config) (AIName config) (Model config)) as (out & perr & Hp & _).
  rewrite Hp in Hr. cbn [fst] in Hr.
  cbn. rewrite Hp. destruct perr as [e |]; cbn; rewrite ?readFileCalls_app, Hr; reflexivity.
Qed.

Lemma scanLines_reads (toks : list string) (fin : option error) (st : Session) :
  readFileCalls (fst (scanLines toks fin st)) = [].
Proof.
  revert st. induction toks as [| line rest IH]; intro st; [reflexivity |].
  cbn [scanLines].
  assert (Hline : readFileCalls (fst (multilineLine st line)) = []).
  { unfold multilineLine.
    destruct (HasPrefix line ":");
      [ destruct (ToLower line =? cmdMulti)%string;
        [| destruct (ToLower line =? cmdRemove)%string;
           [ destruct (0 <? length (lines st))%nat
           | destruct (ToLower line =? cmdEnd)%string ] ] |];
      reflexivity. }
  destruct (multilineLine_quiet st line) as (o & c & st' & Hl & _).
  rewrite Hl in Hline. cbn [fst] in Hline.
  rewrite (bind_returns _ _ _ _ Hl). cbn [fst snd]. rewrite readFileCalls_app, Hline.
  destruct c; [apply IH | reflexivity | reflexivity].
Qed.

(** X18.  A pass calls [readFile] at most once, and only for a line of
    single-line mode that starts with [":file "] as written (lower case,
    one blank): on the name that is the rest of the line.  Such a pass
    sends no request.  In multi-line mode [readFile] is never called.
    (This is about [readFile], the reading of the file the user names;
    the configuration and the style of the renderer are files too and
    are opened elsewhere.) *)
Theorem readFile_only_by_file_command (env : Env) (config : Config)
    (st : Session) (sc : Scanner) :
  let pass := iteration env config st sc in
  let L := snd (fst (Scan sc)) in
  readFileCalls (fst pass) = [] \/
  (isMultiline st = false /\
   HasPrefix L cmdFile = true /\
   readFileCalls (fst pass) = [TrimPrefix L cmdFile] /\
   remoteCalls (fst pass) = []).
Proof.
  intros pass L. subst pass L. destruct (isMultiline st) eqn:Hmode.
  - left.
    destruct (multilineLoop_quiet sc st) as (out & sc1 & st1 & Hl & _).
    assert (Hout : readFileCalls out = []).
    { destruct sc as [toks fin | e]; cbn [multilineLoop] in Hl.
      - pose proof (scanLines_reads toks fin st) as Hr. rewrite Hl in Hr. exact Hr.
      - injection Hl as <- _ _. reflexivity. }
    rewrite (multiline_pass env config st sc out sc1 st1 Hmode Hl).
    destruct (ScanErr sc1) as [e |];
      [cbn; rewrite readFileCalls_app, Hout; reflexivity |].
    destruct (0 <? length (lines st1))%nat;
      [| cbn; rewrite readFileCalls_app, Hout; reflexivity].
    pose proof (sendTurn_reads env config st1 (Join (lines st1) nl)
                  "Error communicating with AI: ") as Hr.
    destruct (sendTurn env config st1 _ _) as [o [s |]]; cbn [fst] in Hr; cbn;
      rewrite !readFileCalls_app, Hout, Hr; reflexivity.
  - unfold iteration. rewrite Hmode.
    destruct (Scan sc) as [[b userInput] sc1]. cbn [fst snd].
    destruct (ToLower userInput =? cmdQuit)%string; [now left |].
    destruct (ToLower userInput =? cmdMulti)%string; [now left |].
    destruct (HasPrefix userInput cmdFile) eqn:Hfile.
    + right. unfold readFile.
      destruct (ReadFile env _) as [content [e |]]; repeat split.
    + left.
      pose proof (sendTurn_reads env config st (plainContent st userInput) "Error: ") as Hr.
      unfold plainContent in Hr.
      destruct (sendTurn env config st _ _) as [o [s |]]; cbn [fst] in Hr; cbn;
        rewrite ?readFileCalls_app, Hr; reflexivity.
Qed.

(** The pass of single-line mode on a [":file "] line whose file is read. *)
Lemma file_pass_ok (env : Env) (config : Config) (st : Session)
    (fileLine : string) (rest : list string) (fin : option error) (content : string) :
  isMultiline st = false ->
  HasPrefix fileLine cmdFile = true ->
  ReadFile env (TrimPrefix fileLine cmdFile) = (content, None) ->
  iteration env config st (Pending (fileLine :: rest) fin) =
  ([promptOf env config st; FileRead (TrimPrefix fileLine cmdFile);
    Stdout ("Added " ++ TrimPrefix fileLine cmdFile ++ " to the context." ++ nl)%string;
    Stdout nl],
   Some (Next,
         set_messages (set_contextFile st (TrimPrefix fileLine cmdFile))
           (messages st ++
            [userMsg ("Content of " ++ TrimPrefix fileLine cmdFile ++ ":" ++ nl
                      ++ content)%string]),
         Pending rest fin)).
Proof.
  intros Hmode Hfile Hread.
  destruct (file_line_is_no_command fileLine Hfile) as [Hq Hm].
  unfold iteration, promptOf. rewrite Hmode. cbn [Scan].
  rewrite Hq, Hm, Hfile. unfold readFile. rewrite Hread. reflexivity.
Qed.

Lemma interactiveLoop_one_calls (env : Env) (config : Config) (st : Session) (sc : Scanner) :
  remoteCalls (fst (interactiveLoop env 1 config st sc)) =
  remoteCalls (fst (iteration env config st sc)).
Proof.
  cbn [interactiveLoop]. unfold bind.
  destruct (snd (iteration env config st sc)) as [[[c s] sc'] |]; [| reflexivity].
  destruct c; cbn [fst ret]; now rewrite app_nil_r.
Qed.

(** X19.  A file loaded with [":file "] goes into the transcript once,
    and the next plain line is sent with it: the request of that line
    carries the transcript so far, the message with the content of the
    file, and the line behind the tag that names the file. *)
Theorem file_then_question (env : Env) (config : Config) (st : Session)
    (fileLine L : string) (rest : list string) (fin : option error) (content : string) :
  isMultiline st = false ->
  HasPrefix fileLine cmdFile = true ->
  ReadFile env (TrimPrefix fileLine cmdFile) = (content, None) ->
  TrimPrefix fileLine cmdFile <> "" ->
  isPlain L = true ->
  let fileName := TrimPrefix fileLine cmdFile in
  remoteCalls (fst (interactiveLoop env 2 config st (Pending (fileLine :: L :: rest) fin))) =
  [ {| openai.Model := Model config;
       Messages :=
         messages st ++
         [userMsg ("Content of " ++ fileName ++ ":" ++ nl ++ content)%string;
          userMsg ("(Context: " ++ fileName ++ ") " ++ L)%string] |} ].
Proof.
  intros Hmode Hfile Hread Hname Hplain fileName.
  pose proof (file_pass_ok env config st fileLine (L :: rest) fin content Hmode Hfile Hread)
    as Hfirst.
  fold fileName in Hfirst, Hname.
  set (st1 := set_messages (set_contextFile st fileName)
                (messages st ++
                 [userMsg ("Content of " ++ fileName ++ ":" ++ nl ++ content)%string])) in *.
  rewrite (interactiveLoop_next env config 1 st st1 _ (Pending (L :: rest) fin)
             (f_equal snd Hfirst)).
  cbn [fst]. rewrite remoteCalls_app, Hfirst, interactiveLoop_one_calls. cbn [fst remoteCalls app].
  rewrite (plain_pass env config st1 L rest fin Hmode Hplain).
  destruct (turn_pass env config st1 (plainContent st1 L) "Error: "
              [promptOf env config st1] (Pending rest fin) eq_refl) as [Hcalls _].
  rewrite Hcalls. unfold plainContent. subst st1. cbn [contextFile messages set_messages set_contextFile].
  apply String.eqb_neq in Hname. rewrite Hname, <- app_assoc. reflexivity.
Qed.

Lemma file_then_question_witness :
  HasPrefix ":file notes.txt" cmdFile = true /\
  isPlain "what next?" = true /\
  remoteCalls (fst (interactiveLoop (demoEnv "" true remoteOk) 2 demoConfig
                      (initialSession demoConfig)
                      (Pending [":file notes.txt"; "what next?"] None))) =
  [ {| openai.Model := "gpt-x";
       Messages := [systemMsg "be terse";
                    userMsg ("Content of notes.txt:" ++ nl ++ "hello")%string;
                    userMsg "(Context: notes.txt) what next?"] |} ].
Proof.
  split; [reflexivity |]. split; [reflexivity |].
  exact (file_then_question (demoEnv "" true remoteOk) demoConfig (initialSession demoConfig)
           ":file notes.txt" "what next?" [] None "hello"
           eq_refl eq_refl eq_refl ltac:(discriminate) eq_refl).
Defined.

(** ** A reply that cannot be rendered *)

(** X20.  When the call of a plain line succeeds and the reply cannot be
    rendered, the pass reports the error after whatever the renderer had
    printed, and goes on; the reply is in [messages] all the same, after
    the user message, and will be part of the next request. *)
Theorem render_failure_keeps_reply (env : Env) (config : Config) (st : Session)
    (L : string) (rest : list string) (fin : option error)
    (resp : ChatCompletionResponse) (choice : ChatCompletionChoice)
    (others : list ChatCompletionChoice) (out : list Effect) (e : error) :
  isMultiline st = false ->
  isPlain L = true ->
  let req := {| openai.Model := Model config;
                Messages := messages st ++ [userMsg (plainContent st L)] |} in
  let response := Content (Message choice) in
  CreateChatCompletion env req = (resp, None) ->
  Choices resp = choice :: others ->
  printFormattedResponse env response (Style config) (AIName config) (Model config) =
    (out, Some (Some e)) ->
  iteration env config st (Pending (L :: rest) fin) =
  ([promptOf env config st; RemoteCall req] ++ out ++
   [Stdout ("Error formatting response: " ++ e ++ nl)%string; Stdout nl],
   Some (Next,
         set_messages st
           (messages st ++ [userMsg (plainContent st L); assistantMsg response]),
         Pending rest fin)).
Proof.
  intros Hmode Hplain req response Hcall Hchoices Hprint.
  rewrite (plain_pass env config st L rest fin Hmode Hplain).
  unfold sendTurn, callOpenAI. cbn [messages set_messages]. fold req.
  rewrite Hcall, Hchoices. io_step. fold response. rewrite Hprint. io_step.
  rewrite <- !app_assoc. reflexivity.
Qed.

Lemma render_failure_keeps_reply_witness :
  let env := {| Open := fun _ => None;
                Decode := fun _ => (demoConfig, None);
                flagPrompt := "";
                flagInteractive := true;
                Getenv := fun _ => "key";
                CreateChatCompletion := remoteOk;
                ReadFile := fun _ => ("", Some "no such file or directory");
                Getwd := ("/", None);
                UserCurrent := ("/root", None);
                lipglossRender := fun _ _ text => text;
                NewTermRenderer := fun _ => Some "style not found";
                glamourRender := fun _ text => (text, None) |} in
  printFormattedResponse env "ok" "dark" "Bot" "gpt-x" = ([], Some (Some "style not found")) /\
  snd (iteration env demoConfig (initialSession demoConfig) (Pending ["hi"] None)) =
  Some (Next, greetedSession, Pending [] None).
Proof.
  intro env. split; [reflexivity |].
  exact (f_equal snd
           (render_failure_keeps_reply env demoConfig (initialSession demoConfig)
              "hi" [] None (fst (reply "ok")) {| Message := assistantMsg "ok" |} [] []
              "style not found" eq_refl eq_refl eq_refl eq_refl eq_refl)).
Defined.
